(** * Guided document assembly: catalog, planner, scorer, sessions, intake

    A shallow embedding of the document-workflow code of the agents package:

    - [docs/catalog.ts]   ([loadDocumentCatalog], [materializeQuestionPlan]),
    - [docs/scoring.ts]   ([computeConfidence]),
    - [docs/session.ts]   ([createDocSession], [calculateCoverageConfidence]),
    - [open-canvas/nodes/generate-artifact/docs-session.ts]
                          ([updateSessionFromMessage], [maybeHandleDocSession]),
    - [open-canvas/nodes/concept-note-action.ts], the unit that exports
      [replyToGeneralInput]
                          ([processDocSessionMessages], [detectReadyIntent]),
    - [open-canvas/nodes/concept-note/user-intake.ts]
                          ([mergeStringLists], [mergeUserInputs],
                           [applyAssumptionsIfRequested],
                           [prepareClarifyingQuestions]).

    Modelling conventions.

    - JavaScript numbers are exact rationals ([Q], compared with [==]);
      rounding ([toFixed], [Math.round]) is written out.
    - JavaScript strings are [string]s of ASCII text.  [trim] strips the
      ASCII white space (tab, LF, VT, FF, CR, space), [toLowerCase] and the
      [/i] flag fold the letters A-Z.  The curly apostrophe of the readiness
      pattern is given by its UTF-8 bytes.
    - [Record<string, T>] objects and [Map<string, T>] whose iteration order
      does not matter to the functions modelled are [gmap string T]; a [Map]
      whose order is read back is an association list in insertion order.
    - Field ids are not names of [Object.prototype] members, so that a
      lookup [dossier[id]] of an absent id is [undefined].
    - [Date.now()], [uuidv4()], the language-model extraction, the JSON
      detail extraction and the regular-expression extraction of the intake
      node are inputs of the functions that use them. *)

From Stdlib Require Import String Ascii List ZArith QArith Qround Qabs Lia Lqa
  Sorted.
From stdpp Require Import gmap strings list pretty.

Local Open Scope string_scope.
Local Open Scope list_scope.

(** ** JavaScript string primitives *)

Module Js.

Definition isWhitespace (c : ascii) : bool :=
  let n := nat_of_ascii c in
  ((9 <=? n)%nat && (n <=? 13)%nat) || (n =? 32)%nat.

Definition isEmpty (s : string) : bool :=
  match s with EmptyString => true | String _ _ => false end.

Fixpoint trimStart (s : string) : string :=
  match s with
  | EmptyString => EmptyString
  | String c r => if isWhitespace c then trimStart r else s
  end.

Fixpoint trimEnd (s : string) : string :=
  match s with
  | EmptyString => EmptyString
  | String c r =>
      let r' := trimEnd r in
      if isWhitespace c && isEmpty r' then EmptyString else String c r'
  end.

(** [s.trim()] *)
Definition trim (s : string) : string := trimEnd (trimStart s).

Definition lowerAscii (c : ascii) : ascii :=
  let n := nat_of_ascii c in
  if ((65 <=? n)%nat && (n <=? 90)%nat)%bool then ascii_of_nat (n + 32) else c.

Definition upperAscii (c : ascii) : ascii :=
  let n := nat_of_ascii c in
  if ((97 <=? n)%nat && (n <=? 122)%nat)%bool then ascii_of_nat (n - 32) else c.

Fixpoint mapChars (f : ascii -> ascii) (s : string) : string :=
  match s with
  | EmptyString => EmptyString
  | String c r => String (f c) (mapChars f r)
  end.

(** [s.toLowerCase()] and [s.toUpperCase()] *)
Definition toLowerCase : string -> string := mapChars lowerAscii.
Definition toUpperCase : string -> string := mapChars upperAscii.

(** [s.startsWith(p)] *)
Definition startsWith (s p : string) : bool := String.prefix p s.

(** [s.includes(needle)] *)
Fixpoint includes (s needle : string) : bool :=
  String.prefix needle s ||
  match s with
  | EmptyString => false
  | String _ r => includes r needle
  end.

Fixpoint dropChars (n : nat) (s : string) : string :=
  match n, s with
  | O, _ => s
  | S _, EmptyString => EmptyString
  | S k, String _ r => dropChars k r
  end.

(** [s.slice(-n)] for a positive [n]: the last [n] characters. *)
Definition sliceLast (n : nat) (s : string) : string :=
  dropChars (String.length s - n) s.

(** [s.slice(0, n)] *)
Fixpoint takeChars (n : nat) (s : string) : string :=
  match n, s with
  | O, _ => EmptyString
  | S _, EmptyString => EmptyString
  | S k, String c r => String c (takeChars k r)
  end.

(** [s.slice(start, end)] for a [start] that is not negative; a negative
    [end] counts from the end of [s]. *)
Definition slice (start : nat) (e : Z) (s : string) : string :=
  let len := Z.of_nat (String.length s) in
  let e' := if (e <? 0)%Z then Z.max (len + e) 0 else Z.min e len in
  takeChars (Z.to_nat e' - start) (dropChars start s).

(** [s.replace(/_/g, " ")] *)
Definition underscoresToSpaces : string -> string :=
  mapChars (fun c => if Ascii.eqb c "_" then " "%char else c).

(** Truthiness of an optional string: defined and not the empty string. *)
Definition truthy (o : option string) : bool :=
  match o with
  | Some v => negb (isEmpty v)
  | None => false
  end.

(** [v && v.trim().length > 0], also [Boolean(v?.trim())]. *)
Definition nonBlank (o : option string) : bool :=
  match o with
  | Some v => negb (isEmpty (trim v))
  | None => false
  end.

(** A case-insensitive regular expression that is an alternation of
    literal phrases, tested with [.test]: some phrase occurs in the text. *)
Definition matchesAnyCI (phrases : list string) (text : string) : bool :=
  existsb (includes (toLowerCase text)) phrases.

(** [Number(x.toFixed(3))]: the nearest multiple of 1/1000, a tie going
    away from zero; from 10^21 on [toFixed] prints the number itself. *)
Definition roundHalfUp1000 (y : Q) : Q :=
  inject_Z (Qfloor (y * 1000 + (1 # 2))) / 1000.

Definition toFixed3 (x : Q) : Q :=
  if Qle_bool (inject_Z (10 ^ 21)) (Qabs x) then x
  else if Qle_bool 0 x then roundHalfUp1000 x
  else - roundHalfUp1000 (- x).

(** [Math.round(x)]: the nearest integer, a tie going up. *)
Definition mathRound (x : Q) : Z := Qfloor (x + (1 # 2)).

(** A stable sort, as [Array.prototype.sort] is: insertion by [le]. *)
Section Sort.
Context {A : Type} (le : A -> A -> bool).

Fixpoint insertSorted (x : A) (l : list A) : list A :=
  match l with
  | [] => [x]
  | y :: r => if le x y then x :: l else y :: insertSorted x r
  end.

Definition stableSort (l : list A) : list A :=
  fold_right insertSorted [] l.
End Sort.

End Js.

(** ** docs/types.ts *)

Inductive AnswerSource := SrcUser | SrcResearch | SrcAssumption.

Record RequirementSpec := {
  rs_id : string;
  rs_label : string;
  rs_description : string;
  rs_weight : option Q;
  rs_required : bool
}.

Record QuestionSpec := {
  qs_id : string;
  qs_text : string;
  qs_targets : list string
}.

Record ResearchPromptSpec := {
  rp_query : string;
  rp_applies_to : list string
}.

Record DocumentDefinition := {
  dd_id : string;
  dd_name : string;
  dd_description : string;
  dd_stage_hint : option string;
  dd_template : string;
  dd_template_markdown : option string;
  dd_prerequisites : option string;
  dd_required_fields : list RequirementSpec;
  dd_optional_fields : list RequirementSpec;
  dd_diagnostic_questions : list QuestionSpec;
  dd_research_prompts : option (list ResearchPromptSpec)
}.

Record AnswerRecord := {
  ar_fieldId : string;
  ar_value : string;
  ar_source : AnswerSource;
  ar_confidence : Q;
  ar_timestamps : list Z
}.

Record Citation := {
  ci_id : string;
  ci_label : string;
  ci_url : string;
  ci_note : string;
  ci_appliesTo : list string
}.

Record QuestionPlanItem := {
  qp_id : string;
  qp_text : string;
  qp_targets : list string;
  qp_priority : Q
}.

Record ResearchPlanItem := {
  rpi_id : string;
  rpi_query : string;
  rpi_appliesTo : list string
}.

Record DocSessionState := {
  active : bool;
  docType : string;
  definition : DocumentDefinition;
  answers : gmap string AnswerRecord;
  dossier : gmap string string;
  pendingQuestions : list QuestionPlanItem;
  researchPlan : list ResearchPlanItem;
  citations : list Citation;
  confidence : Q;
  readyToGenerate : bool;
  template : string;
  title : string;
  processedMessageIds : list string;
  lastAskedQuestionId : option string
}.

(** ** docs/catalog.ts *)

Module Catalog.
Local Open Scope Q_scope.

Record RawRequirement := {
  rr_id : string;
  rr_label : string;
  rr_description : string;
  rr_weight : option Q
}.

Record RawQuestion := {
  rq_id : string;
  rq_text : string;
  rq_targets : list string
}.

Record RawResearchPrompt := {
  rrp_query : string;
  rrp_applies_to : list string
}.

(** The optional members are the ones the loader reads with [?.] or [??]. *)
Record RawDocumentDefinition := {
  rd_id : string;
  rd_name : string;
  rd_description : string;
  rd_stage_hint : option string;
  rd_template : string;
  rd_pre_requisites_documents : option string;
  rd_document_template : option string;
  rd_required_fields : list RawRequirement;
  rd_optional_fields : option (list RawRequirement);
  rd_diagnostic_questions : option (list RawQuestion);
  rd_research_prompts : option (list RawResearchPrompt)
}.

(** [doc_types] is [None] when the member is absent or is not an array. *)
Record DocCatalogRaw := {
  doc_types : option (list RawDocumentDefinition)
}.

(** What [readFile] followed by [YAML.parse] can come to: the read rejects,
    the parser throws, or a value is parsed ([None] for a null document). *)
Inductive CatalogSource :=
| Unreadable
| Malformed
| Parsed (parsed : option DocCatalogRaw).

Inductive LoadError :=
| ReadError
| ParseError
| MissingDocTypes.

Definition normalizeRequirement (input : RawRequirement) (required : bool)
    : RequirementSpec :=
  {| rs_id := rr_id input;
     rs_label := rr_label input;
     rs_description := rr_description input;
     rs_weight := Some (match rr_weight input with Some w => w | None => 1 end);
     rs_required := required |}.

Definition normalizeQuestion (input : RawQuestion) : QuestionSpec :=
  {| qs_id := rq_id input;
     qs_text := rq_text input;
     qs_targets := rq_targets input |}.

(** The body of the [parsed.doc_types.map] callback. *)
Definition normalizeDefinition (doc : RawDocumentDefinition)
    : DocumentDefinition :=
  {| dd_id := rd_id doc;
     dd_name := rd_name doc;
     dd_description := rd_description doc;
     dd_stage_hint := rd_stage_hint doc;
     dd_template := rd_template doc;
     dd_template_markdown := rd_document_template doc;
     dd_prerequisites := rd_pre_requisites_documents doc;
     dd_required_fields :=
       List.map (fun f => normalizeRequirement f true) (rd_required_fields doc);
     dd_optional_fields :=
       match rd_optional_fields doc with
       | Some l => List.map (fun f => normalizeRequirement f false) l
       | None => []
       end;
     dd_diagnostic_questions :=
       match rd_diagnostic_questions doc with
       | Some l => List.map normalizeQuestion l
       | None => []
       end;
     dd_research_prompts :=
       match rd_research_prompts doc with
       | Some l =>
           Some (List.map (fun item => {| rp_query := rrp_query item;
                                          rp_applies_to := rrp_applies_to item |}) l)
       | None => None
       end |}.

(** [new Map(entries)]: a later entry replaces an earlier one of the same
    key. *)
Definition mapOfEntries (entries : list (string * DocumentDefinition))
    : gmap string DocumentDefinition :=
  fold_left (fun m e => <[fst e := snd e]> m) entries ∅.

(** [loadDocumentCatalog], with the module-level [cachedCatalog] passed in
    and returned. *)
Definition loadDocumentCatalog
    (cachedCatalog : option (gmap string DocumentDefinition))
    (src : CatalogSource)
    : (LoadError + gmap string DocumentDefinition)
      * option (gmap string DocumentDefinition) :=
  match cachedCatalog with
  | Some c => (inr c, cachedCatalog)
  | None =>
      match src with
      | Unreadable => (inl ReadError, None)
      | Malformed => (inl ParseError, None)
      | Parsed None => (inl MissingDocTypes, None)
      | Parsed (Some parsed) =>
          match doc_types parsed with
          | None => (inl MissingDocTypes, None)
          | Some docs =>
              let entries :=
                List.map (fun doc => let definition := normalizeDefinition doc in
                                     (dd_id definition, definition)) docs in
              let c := mapOfEntries entries in
              (inr c, Some c)
          end
      end
  end.

(** [field.weight ?? 1] and [field.weight ?? 0.5] *)
Definition requiredWeight (f : RequirementSpec) : Q :=
  match rs_weight f with Some w => w | None => 1 end.

Definition optionalWeight (f : RequirementSpec) : Q :=
  match rs_weight f with Some w => w | None => 1 # 2 end.

(** The [coverageWeights] map of [materializeQuestionPlan]. *)
Definition coverageWeights (d : DocumentDefinition) : gmap string Q :=
  fold_left (fun m f => <[rs_id f := optionalWeight f]> m)
    (dd_optional_fields d)
    (fold_left (fun m f => <[rs_id f := requiredWeight f]> m)
       (dd_required_fields d) ∅).

Definition targetsWeight (cw : gmap string Q) (targets : list string) : Q :=
  fold_left
    (fun acc fieldId =>
       acc + match cw !! fieldId with Some w => w | None => 1 # 2 end)
    targets 0.

Definition materializeQuestionPlan (d : DocumentDefinition)
    : list QuestionPlanItem :=
  let cw := coverageWeights d in
  imap
    (fun index question =>
       {| qp_id := qs_id question;
          qp_text := qs_text question;
          qp_targets := qs_targets question;
          qp_priority :=
            targetsWeight cw (qs_targets question)
            + 1 / inject_Z (Z.of_nat index + 1) |})
    (dd_diagnostic_questions d).

Definition materializeResearchPlan (d : DocumentDefinition)
    : list ResearchPlanItem :=
  match dd_research_prompts d with
  | None => []
  | Some prompts =>
      imap
        (fun index item =>
           {| rpi_id := dd_id d +:+ ":research:" +:+ pretty index;
              rpi_query := rp_query item;
              rpi_appliesTo := rp_applies_to item |})
        prompts
  end.

(** What [getDocumentDefinition] throws: the error of the load it awaits,
    or its own for a type that the catalog does not hold (the message names
    the type and lists the catalog's keys). *)
Inductive GetError :=
| LoadFailed (e : LoadError)
| NoSuchDocType (docType : string).

(** [getDocumentDefinition], the cache passed in and returned as for the
    loader. *)
Definition getDocumentDefinition
    (cachedCatalog : option (gmap string DocumentDefinition))
    (src : CatalogSource) (docType : string)
    : (GetError + DocumentDefinition)
      * option (gmap string DocumentDefinition) :=
  match loadDocumentCatalog cachedCatalog src with
  | (inl e, cache) => (inl (LoadFailed e), cache)
  | (inr catalog, cache) =>
      match catalog !! docType with
      | Some definition => (inr definition, cache)
      | None => (inl (NoSuchDocType docType), cache)
      end
  end.

End Catalog.

(** ** docs/scoring.ts *)

Module Scoring.
Local Open Scope Q_scope.

Record ConfidenceReport := {
  completeness : Q;
  evidence : Q;
  clarity : Q;
  overall : Q;
  missingRequired : list RequirementSpec
}.

(** [PLACEHOLDER_REGEX = /(tbd|to be determined|lorem ipsum|fill me)/i] *)
Definition PLACEHOLDER_PHRASES : list string :=
  ["tbd"; "to be determined"; "lorem ipsum"; "fill me"]%string.

Definition isPlaceholder (v : string) : bool :=
  Js.matchesAnyCI PLACEHOLDER_PHRASES v.

(** [field.weight ?? d] *)
Definition weightOr (d : Q) (f : RequirementSpec) : Q :=
  match rs_weight f with Some w => w | None => d end.

Definition totalWeight (required : list RequirementSpec) : Q :=
  fold_left (fun acc f => acc + weightOr 1 f) required 0.

Definition isCovered (dos : gmap string string) (f : RequirementSpec) : bool :=
  Js.nonBlank (dos !! rs_id f).

Definition coveredWeight (dos : gmap string string)
    (required : list RequirementSpec) : Q :=
  fold_left (fun acc f => if isCovered dos f then acc + weightOr 1 f else acc)
            required 0.

Definition missingRequiredOf (dos : gmap string string)
    (required : list RequirementSpec) : list RequirementSpec :=
  List.filter (fun f => negb (isCovered dos f)) required.

Definition completenessOf (dos : gmap string string)
    (required : list RequirementSpec) : Q :=
  if Qeq_bool (totalWeight required) 0 then 0
  else coveredWeight dos required / totalWeight required.

(** The [citationsByField] counter map. *)
Definition citationsByField (cits : list Citation) : gmap string nat :=
  fold_left
    (fun m c =>
       fold_left
         (fun m' fieldId =>
            <[fieldId := (match m' !! fieldId with Some n => n | None => O end + 1)%nat]> m')
         (ci_appliesTo c) m)
    cits ∅.

Definition hasValue (dos : gmap string string) (f : RequirementSpec) : bool :=
  Js.truthy (dos !! rs_id f).

Definition evidenceOf (d : DocumentDefinition) (dos : gmap string string)
    (cits : list Citation) : Q :=
  let fields := dd_required_fields d ++ dd_optional_fields d in
  let evidenceDenominator := length (List.filter (hasValue dos) fields) in
  match evidenceDenominator with
  | O => 0
  | S _ =>
      fold_left
        (fun acc f =>
           if hasValue dos f
           then acc + (if bool_decide (is_Some (citationsByField cits !! rs_id f))
                       then 1 else 0)
           else acc)
        fields 0
      / inject_Z (Z.of_nat evidenceDenominator)
  end.

Definition isUnclear (v : string) : bool :=
  if Js.isEmpty v then true else isPlaceholder v.

Definition unclearCount (dos : gmap string string) : nat :=
  length (List.filter (fun kv => isUnclear (snd kv)) (map_to_list dos)).

Definition clarityOf (dos : gmap string string) : Q :=
  let clarityDenominator := match size dos with O => 1%nat | n => n end in
  1 - inject_Z (Z.of_nat (unclearCount dos))
      / inject_Z (Z.of_nat clarityDenominator).

Definition computeConfidence (d : DocumentDefinition)
    (dos : gmap string string) (cits : list Citation) : ConfidenceReport :=
  let c := completenessOf dos (dd_required_fields d) in
  let e := evidenceOf d dos cits in
  let cl := clarityOf dos in
  {| completeness := c;
     evidence := e;
     clarity := cl;
     overall := Js.toFixed3 ((1 # 2) * c + (3 # 10) * e + (2 # 10) * cl);
     missingRequired := missingRequiredOf dos (dd_required_fields d) |}.

End Scoring.


(** ** Messages

    A [BaseMessage] as the session code reads it: its type tag, the three
    places an id may sit, and the text that [getStringFromContent] (a helper
    outside this code) yields for its content. *)

Record BaseMessage := {
  msg_type : string;
  msg_id : option string;
  msg_kwargs_id : option string;
  msg_additional_kwargs_id : option string;
  msg_text : option string
}.

(** [getStringFromContent(message.content) ?? ""] *)
Definition messageText (m : BaseMessage) : string :=
  match msg_text m with Some c => c | None => "" end.

Definition isHuman (m : BaseMessage) : bool := String.eqb (msg_type m) "human".

(** [[...messages].reverse().find(m => m.getType() === "human")] *)
Definition getLatestHumanMessage (messages : list BaseMessage)
    : option BaseMessage :=
  List.find isHuman (rev messages).

(** Record updates of the session, one per spread [{...session, k: v}]. *)
Definition setProcessedMessageIds (ids : list string) (s : DocSessionState)
    : DocSessionState :=
  {| active := active s; docType := docType s; definition := definition s;
     answers := answers s; dossier := dossier s;
     pendingQuestions := pendingQuestions s; researchPlan := researchPlan s;
     citations := citations s; confidence := confidence s;
     readyToGenerate := readyToGenerate s; template := template s;
     title := title s; processedMessageIds := ids;
     lastAskedQuestionId := lastAskedQuestionId s |}.

Definition setDossier (dos : gmap string string) (s : DocSessionState)
    : DocSessionState :=
  {| active := active s; docType := docType s; definition := definition s;
     answers := answers s; dossier := dos;
     pendingQuestions := pendingQuestions s; researchPlan := researchPlan s;
     citations := citations s; confidence := confidence s;
     readyToGenerate := readyToGenerate s; template := template s;
     title := title s; processedMessageIds := processedMessageIds s;
     lastAskedQuestionId := lastAskedQuestionId s |}.

Definition setLastAskedQuestionId (q : option string) (s : DocSessionState)
    : DocSessionState :=
  {| active := active s; docType := docType s; definition := definition s;
     answers := answers s; dossier := dossier s;
     pendingQuestions := pendingQuestions s; researchPlan := researchPlan s;
     citations := citations s; confidence := confidence s;
     readyToGenerate := readyToGenerate s; template := template s;
     title := title s; processedMessageIds := processedMessageIds s;
     lastAskedQuestionId := q |}.

Definition setReadyToGenerate (b : bool) (s : DocSessionState)
    : DocSessionState :=
  {| active := active s; docType := docType s; definition := definition s;
     answers := answers s; dossier := dossier s;
     pendingQuestions := pendingQuestions s; researchPlan := researchPlan s;
     citations := citations s; confidence := confidence s;
     readyToGenerate := b; template := template s;
     title := title s; processedMessageIds := processedMessageIds s;
     lastAskedQuestionId := lastAskedQuestionId s |}.

(** ** docs/session.ts *)

Module Session.
Local Open Scope Q_scope.

(** The comparator [(a, b) => b.priority - a.priority] is not positive:
    [a] stays before [b]. *)
Definition byPriorityDesc (a b : QuestionPlanItem) : bool :=
  Qle_bool (qp_priority b) (qp_priority a).

Definition sortQuestionsByPriority (questions : list QuestionPlanItem)
    : list QuestionPlanItem :=
  Js.stableSort byPriorityDesc questions.

(** The source also sets [assumptionNote] and [assumedFieldIds], two members
    that [DocSessionState] does not declare and nothing here reads. *)
Definition createDocSession (d : DocumentDefinition) : DocSessionState :=
  {| active := true;
     docType := dd_id d;
     definition := d;
     answers := ∅;
     dossier := ∅;
     pendingQuestions :=
       sortQuestionsByPriority (Catalog.materializeQuestionPlan d);
     researchPlan := Catalog.materializeResearchPlan d;
     citations := [];
     confidence := 0;
     readyToGenerate := false;
     template := dd_template d;
     title := dd_name d +:+ " Draft";
     processedMessageIds := [];
     lastAskedQuestionId := None |}.

Definition isAnswered (ans : gmap string AnswerRecord) (fieldId : string)
    : bool :=
  Js.nonBlank (ar_value <$> ans !! fieldId).

Definition calculateCoverageConfidence (d : DocumentDefinition)
    (ans : gmap string AnswerRecord) : Z :=
  let requiredIds := List.map rs_id (dd_required_fields d) in
  match requiredIds with
  | [] => 0%Z
  | _ =>
      let answeredCount := length (List.filter (isAnswered ans) requiredIds) in
      Js.mathRound (inject_Z (Z.of_nat answeredCount)
                    / inject_Z (Z.of_nat (length requiredIds))
                    * 100)
  end.

Definition findNextQuestion (s : DocSessionState) : option QuestionPlanItem :=
  head (pendingQuestions s).

End Session.

(** ** docs/intent.ts *)

Module Intent.

Definition DOC_CONFIG_KEYS : list string :=
  ["documentType"; "document_type"; "docType"; "doc_type"].

Definition DEFAULT_DOC_TYPE : string := "project_concept_note".

Definition DOC_KEYWORDS : list (string * list string) :=
  [ ("project_concept_note",
     ["project concept note"; "concept note"; "concept paper"]);
    ("feasibility_study",
     ["feasibility study"; "pre-feasibility"; "prefeasibility";
      "bankable feasibility"; "fs draft"]);
    ("power_purchase_agreement",
     ["power purchase agreement"; "ppa"; "ppa term sheet"]);
    ("environmental_impact_assessment",
     ["environmental impact assessment"; "eia";
      "environmental impact study"; "eia report"]);
    ("free_prior_informed_consent",
     ["free prior and informed consent"; "free, prior and informed consent";
      "fpic"; "local stakeholder consultation"; "lsc documentation"]);
    ("tech_design",
     ["technical design"; "tech design"; "design document"; "system design";
      "architecture design"]);
    ("prd",
     ["product requirements"; "product requirement"; "prd";
      "requirements document"]);
    ("adr", ["architecture decision"; "adr"; "decision record"]) ].

Definition normalizeDocTypeCandidate (candidate : option string)
    : option string :=
  if negb (Js.truthy candidate) then None
  else
    let trimmed :=
      Js.trim (match candidate with Some c => c | None => "" end) in
    if Js.isEmpty trimmed then None
    else
      let lower := Js.toLowerCase trimmed in
      match List.find
              (fun keyword =>
                 String.eqb (fst keyword) lower
                 || existsb (fun phrase => Js.includes lower phrase)
                            (snd keyword))
              DOC_KEYWORDS with
      | Some keyword => Some (fst keyword)
      | None => Some trimmed
      end.

(** A value of [config.configurable]: a string, or anything else. *)
Inductive ConfigValue :=
| StringValue (value : string)
| OtherValue.

(** The loop of [getDocTypeFromConfig] over the keys. *)
Fixpoint firstConfigured (configurable : gmap string ConfigValue)
    (keys : list string) : option string :=
  match keys with
  | [] => None
  | key :: rest =>
      match configurable !! key with
      | Some (StringValue value) =>
          if negb (Js.isEmpty (Js.trim value))
          then normalizeDocTypeCandidate (Some value)
          else firstConfigured configurable rest
      | _ => firstConfigured configurable rest
      end
  end.

Definition getDocTypeFromConfig
    (configurable : option (gmap string ConfigValue)) : option string :=
  match configurable with
  | None => None
  | Some c => firstConfigured c DOC_CONFIG_KEYS
  end.

Definition detectDocTypeFromMessages (messages : option (list BaseMessage))
    : option string :=
  match messages with
  | None | Some [] => None
  | Some l =>
      match getLatestHumanMessage l with
      | None => None
      | Some latestHuman =>
          let content := msg_text latestHuman in
          if negb (Js.truthy content) then None
          else
            let normalized :=
              Js.toLowerCase (match content with Some c => c | None => "" end) in
            match List.find
                    (fun keyword =>
                       existsb (fun phrase => Js.includes normalized phrase)
                               (snd keyword)
                       || Js.includes normalized (fst keyword)
                       || Js.includes normalized
                            (Js.underscoresToSpaces (fst keyword)))
                    DOC_KEYWORDS with
            | Some keyword => Some (fst keyword)
            | None => None
            end
      end
  end.

(** One [try { return await getDocumentDefinition(t) } catch { warn }]:
    the definition, or nothing when the call threw. *)
Definition tryGetDefinition
    (cache : option (gmap string DocumentDefinition))
    (src : Catalog.CatalogSource) (docType : string)
    : option DocumentDefinition * option (gmap string DocumentDefinition) :=
  match Catalog.getDocumentDefinition cache src docType with
  | (inr definition, cache') => (Some definition, cache')
  | (inl _, cache') => (None, cache')
  end.

(** [resolveDocumentDefinition]; the catalog cache is passed in and
    returned. *)
Definition resolveDocumentDefinition
    (cache : option (gmap string DocumentDefinition))
    (src : Catalog.CatalogSource)
    (configurable : option (gmap string ConfigValue))
    (messages : option (list BaseMessage)) (fallbackToDefault : bool)
    : option DocumentDefinition * option (gmap string DocumentDefinition) :=
  let docTypeFromConfig := getDocTypeFromConfig configurable in
  let '(fromConfig, cache1) :=
    if Js.truthy docTypeFromConfig
    then tryGetDefinition cache src
           (match docTypeFromConfig with Some t => t | None => "" end)
    else (None, cache) in
  match fromConfig with
  | Some definition => (Some definition, cache1)
  | None =>
      let docTypeFromMessages := detectDocTypeFromMessages messages in
      let '(fromMessages, cache2) :=
        if Js.truthy docTypeFromMessages
        then tryGetDefinition cache1 src
               (match docTypeFromMessages with Some t => t | None => "" end)
        else (None, cache1) in
      match fromMessages with
      | Some definition => (Some definition, cache2)
      | None =>
          if negb fallbackToDefault then (None, cache2)
          else tryGetDefinition cache2 src DEFAULT_DOC_TYPE
      end
  end.

End Intent.

(** ** open-canvas/nodes/generate-artifact/docs-session.ts *)

Module DocsSession.
Local Open Scope Q_scope.

Record ExtractedAnswer := {
  ea_fieldId : string;
  ea_value : string;
  ea_confidence : Q
}.

(** What the structured-output model call returns. *)
Record Extraction := {
  ex_answers : list ExtractedAnswer;
  ex_title : option string
}.

Definition DOC_KEYWORDS : list (string * list string) :=
  [ ("tech_design", ["technical design"; "tech design"; "design document";
                     "system design"; "architecture design"]);
    ("prd", ["product requirements"; "product requirement"; "prd";
             "requirements document"]);
    ("adr", ["architecture decision"; "adr"; "decision record"]) ].

Definition detectDocTypeFromMessage (content : option string) : option string :=
  if Js.truthy content then
    let normalized :=
      Js.toLowerCase (match content with Some c => c | None => "" end) in
    match List.find (fun kw => existsb (Js.includes normalized) (snd kw))
                    DOC_KEYWORDS with
    | Some kw => Some (fst kw)
    | None => if Js.includes normalized "document" then Some "prd" else None
    end
  else None.

(** [createSession]: the definition is looked up in the loaded catalog; an
    unknown type makes [getDocumentDefinition] throw. *)
Definition createSession (catalog : gmap string DocumentDefinition)
    (docTypeName : string) : option DocSessionState :=
  match catalog !! docTypeName with
  | None => None
  | Some d =>
      Some {| active := true;
              docType := dd_id d;
              definition := d;
              answers := ∅;
              dossier := ∅;
              pendingQuestions :=
                Js.stableSort Session.byPriorityDesc
                  (Catalog.materializeQuestionPlan d);
              researchPlan := [];
              citations := [];
              confidence := 0;
              readyToGenerate := false;
              template := dd_template d;
              title := dd_name d +:+ " Draft";
              processedMessageIds := [];
              lastAskedQuestionId := None |}
  end.

(** [message.id ?? `${message.getType()}-${fallbackIndex}`] *)
Definition getMessageId (message : BaseMessage) (fallbackIndex : Z) : string :=
  match msg_id message with
  | Some i => i
  | None => msg_type message +:+ "-" +:+ pretty fallbackIndex
  end.

(** One pass of the [for (const answer of response.answers)] loop.  The
    time stamps continue the history of the session as it was on entry;
    [now i] is what [Date.now()] returns at the answer of position [i]. *)
Definition applyAnswer (s : DocSessionState) (now : nat -> Z)
    (acc : gmap string AnswerRecord * gmap string string)
    (ia : nat * ExtractedAnswer)
    : gmap string AnswerRecord * gmap string string :=
  let '(i, answer) := ia in
  if Js.isEmpty (Js.trim (ea_value answer)) then acc
  else
    let timestamp := now i in
    let history :=
      match answers s !! ea_fieldId answer with
      | Some r => ar_timestamps r
      | None => []
      end in
    (<[ea_fieldId answer :=
         {| ar_fieldId := ea_fieldId answer;
            ar_value := Js.trim (ea_value answer);
            ar_source := SrcUser;
            ar_confidence := ea_confidence answer;
            ar_timestamps := history ++ [timestamp] |}]> (fst acc),
     <[ea_fieldId answer := Js.trim (ea_value answer)]> (snd acc)).

Definition indexed {A : Type} (l : list A) : list (nat * A) :=
  imap (fun i a => (i, a)) l.

Definition allTargetsFilled (dos : gmap string string) (q : QuestionPlanItem)
    : bool :=
  forallb (fun target => Js.nonBlank (dos !! target)) (qp_targets q).

(** [updateSessionFromMessage]; [response] is [None] when the model call
    threw. *)
Definition updateSessionFromMessage (s : DocSessionState)
    (message : BaseMessage) (messageIndex : Z)
    (response : option Extraction) (now : nat -> Z) : DocSessionState :=
  let messageId := getMessageId message messageIndex in
  if bool_decide (messageId ∈ processedMessageIds s) then s
  else
    let '(updatedAnswers, updatedDossier) :=
      match response with
      | Some r =>
          fold_left (applyAnswer s now) (indexed (ex_answers r))
                    (answers s, dossier s)
      | None => (answers s, dossier s)
      end in
    let title' :=
      match response with
      | Some r => if Js.truthy (ex_title r)
                  then match ex_title r with Some t => t | None => title s end
                  else title s
      | None => title s
      end in
    let filteredQuestions :=
      List.filter (fun q => negb (allTargetsFilled updatedDossier q))
                  (pendingQuestions s) in
    {| active := active s; docType := docType s; definition := definition s;
       answers := updatedAnswers;
       dossier := updatedDossier;
       pendingQuestions := Js.stableSort Session.byPriorityDesc filteredQuestions;
       researchPlan := researchPlan s; citations := citations s;
       confidence := confidence s; readyToGenerate := readyToGenerate s;
       template := template s;
       title := title';
       processedMessageIds := processedMessageIds s ++ [messageId];
       lastAskedQuestionId := None |}.

(** Lines 309-319 of [maybeHandleDocSession]: score the session and set
    its confidence and readiness. *)
Definition scoreSession (s : DocSessionState) : DocSessionState :=
  let confidenceReport :=
    Scoring.computeConfidence (definition s) (dossier s) (citations s) in
  let ready :=
    Qle_bool (3 # 4) (Scoring.overall confidenceReport)
    && bool_decide (length (Scoring.missingRequired confidenceReport) = 0%nat) in
  {| active := active s; docType := docType s; definition := definition s;
     answers := answers s; dossier := dossier s;
     pendingQuestions := pendingQuestions s; researchPlan := researchPlan s;
     citations := citations s;
     confidence := Scoring.overall confidenceReport;
     readyToGenerate := ready;
     template := template s; title := title s;
     processedMessageIds := processedMessageIds s;
     lastAskedQuestionId := lastAskedQuestionId s |}.

(** What [maybeHandleDocSession] returns: nothing, a thrown error, the
    session kept (with the question asked this turn, if any), or the
    artifact rendered from the session, whose state is then dropped. *)
Inductive DocSessionOutcome :=
| NotHandled
| UnknownDocType
| Continue (docsState : DocSessionState) (asked : option QuestionPlanItem)
| Artifact (renderedFrom : DocSessionState).

(** The index [messages.findIndex(msg => msg === latestHuman)], [-1] when
    there is none. *)
Definition latestHumanIndex (messages : list BaseMessage) : Z :=
  match List.find (fun im => isHuman (snd im)) (rev (indexed messages)) with
  | Some im => Z.of_nat (fst im)
  | None => (-1)%Z
  end.

Definition maybeHandleDocSession (catalog : gmap string DocumentDefinition)
    (docsState : option DocSessionState) (messages : list BaseMessage)
    (response : option Extraction) (now : nat -> Z) : DocSessionOutcome :=
  let latestHuman := getLatestHumanMessage messages in
  let latestContent :=
    match latestHuman with Some m => msg_text m | None => None end in
  let docTypeFromMessage := detectDocTypeFromMessage latestContent in
  let created :=
    match docsState, docTypeFromMessage with
    | Some s, _ => Some (Some s)
    | None, Some t =>
        match createSession catalog t with
        | Some s => Some (Some s)
        | None => None
        end
    | None, None => Some None
    end in
  match created with
  | None => UnknownDocType
  | Some None => NotHandled
  | Some (Some session0) =>
      let session1 :=
        match latestHuman with
        | Some m =>
            updateSessionFromMessage session0 m (latestHumanIndex messages)
                                     response now
        | None => session0
        end in
      let session := scoreSession session1 in
      if readyToGenerate session then Artifact session
      else
        match pendingQuestions session with
        | [] => Continue session None
        | nextQuestion :: _ =>
            if bool_decide (lastAskedQuestionId session = Some (qp_id nextQuestion))
            then Continue session None
            else Continue (setLastAskedQuestionId (Some (qp_id nextQuestion)) session)
                          (Some nextQuestion)
        end
  end.

(** The two counts that [progressSummary] prints: the required fields with
    a non-blank dossier value, and [requiredIds.length || 1]. *)
Definition progressCounts (s : DocSessionState) : nat * nat :=
  let requiredIds := List.map rs_id (dd_required_fields (definition s)) in
  let filled :=
    length (List.filter (fun id => Js.nonBlank (dossier s !! id)) requiredIds) in
  let total := match length requiredIds with O => 1%nat | n => n end in
  (filled, total).

Definition progressSummary (s : DocSessionState) : string :=
  let '(filled, total) := progressCounts s in
  pretty filled +:+ "/" +:+ pretty total +:+ " required fields captured".

End DocsSession.

(** ** open-canvas/nodes/concept-note-action.ts: the quick action *)

Module ConceptNoteAction.

Definition conceptNoteKeywords : list string :=
  [ "concept note";
    "concept paper";
    "project proposal";
    "generate concept note";
    "create concept note";
    "build concept note";
    "concept note builder";
    "project concept";
    "proposal draft" ].

Definition isConceptNoteRequest (content : string) : bool :=
  let lowerContent := Js.toLowerCase content in
  existsb (fun keyword => Js.includes lowerContent keyword) conceptNoteKeywords.

End ConceptNoteAction.

(** ** open-canvas/nodes/concept-note-action.ts: the reply node

    The unit that exports [replyToGeneralInput]. *)

Module Reply.
Local Open Scope Q_scope.

(** The right single quotation mark U+2019, in UTF-8. *)
Definition curlyApostrophe : string :=
  String (ascii_of_nat 226) (String (ascii_of_nat 128)
    (String (ascii_of_nat 153) EmptyString)).

(** [READY_PATTERNS], each expression spelled out as the phrases it
    accepts; all carry the [/i] flag. *)
Definition READY_PATTERNS : list (list string) :=
  [ (* /ready to (?:start|generate|draft)/i *)
    ["ready to start"; "ready to generate"; "ready to draft"];
    (* /go ahead and (?:start|generate|draft)/i *)
    ["go ahead and start"; "go ahead and generate"; "go ahead and draft"];
    (* /generate (?:the )?(?:doc|document|draft)/i *)
    ["generate the doc"; "generate the document"; "generate the draft";
     "generate doc"; "generate document"; "generate draft"];
    (* /we['’]?re ready/i *)
    ["we're ready"; "we" +:+ curlyApostrophe +:+ "re ready"; "were ready"] ].

Definition detectReadyIntent (text : string) : bool :=
  if Js.isEmpty (Js.trim text) then false
  else existsb (fun pattern => Js.matchesAnyCI pattern text) READY_PATTERNS.

(** [typeof x === "string" && x.trim()] selects [x]. *)
Definition nonBlankId (o : option string) : option string :=
  match o with
  | Some i => if Js.isEmpty (Js.trim i) then None else Some i
  | None => None
  end.

Definition getDeterministicMessageId (message : BaseMessage) : option string :=
  match nonBlankId (msg_id message) with
  | Some i => Some i
  | None =>
      match nonBlankId (msg_kwargs_id message) with
      | Some i => Some i
      | None =>
          match nonBlankId (msg_additional_kwargs_id message) with
          | Some i => Some i
          | None =>
              match msg_text message with
              | Some content =>
                  if Js.isEmpty (Js.trim content) then None
                  else Some ("content:" +:+ Js.sliceLast 64 (Js.trim content))
              | None => None
              end
          end
      end
  end.

(** The [project] and [user] members found in the message, each already
    rendered by [toPrettyString]; [None] for a member that is undefined. *)
Record ProjectUserDetails := {
  pud_project : option string;
  pud_user : option string
}.

Definition mergeProjectUserDetails (session : DocSessionState)
    (details : option ProjectUserDetails) : DocSessionState :=
  match details with
  | None => session
  | Some det =>
      match pud_project det, pud_user det with
      | None, None => session
      | project, user =>
          let currentProject := dossier session !! "project_details" in
          let currentUser := dossier session !! "user_details" in
          let projectUnchanged :=
            match project with
            | None => true
            | Some p => bool_decide (Some p = currentProject)
            end in
          let userUnchanged :=
            match user with
            | None => true
            | Some u => bool_decide (Some u = currentUser)
            end in
          if projectUnchanged && userUnchanged then session
          else
            let withProject :=
              match project with
              | Some p => <["project_details" := p]> (dossier session)
              | None => dossier session
              end in
            let withUser :=
              match user with
              | Some u => <["user_details" := u]> withProject
              | None => withProject
              end in
            setDossier withUser session
      end
  end.

(** One pass of [targetQuestion.targets.forEach]: the whole trimmed message
    becomes the answer of the target, its time stamp appended to the
    history recorded so far. *)
Definition recordAnswer (trimmedContent : string) (timestamp : Z)
    (updatedAnswers : gmap string AnswerRecord) (targetId : string)
    : gmap string AnswerRecord :=
  if Js.isEmpty targetId then updatedAnswers
  else
    let timestamps :=
      match updatedAnswers !! targetId with
      | Some existing => ar_timestamps existing
      | None => []
      end in
    <[targetId :=
        {| ar_fieldId := targetId;
           ar_value := trimmedContent;
           ar_source := SrcUser;
           ar_confidence := 7 # 10;
           ar_timestamps := timestamps ++ [timestamp] |}]> updatedAnswers.

(** The branch taken when the asked question is still pending and the
    message is no readiness utterance. *)
Definition answerAskedQuestion (s : DocSessionState)
    (targetQuestion : QuestionPlanItem) (trimmedContent : string)
    (timestamp : Z) : DocSessionState :=
  let updatedAnswers :=
    fold_left (recordAnswer trimmedContent timestamp)
              (qp_targets targetQuestion) (answers s) in
  let remainingQuestions :=
    List.filter
      (fun q => negb (String.eqb (qp_id q) (qp_id targetQuestion)))
      (pendingQuestions s) in
  let confidence' :=
    Session.calculateCoverageConfidence (definition s) updatedAnswers in
  let readyToGenerate' :=
    (75 <=? confidence')%Z
    || bool_decide (length remainingQuestions = 0%nat) in
  {| active := active s; docType := docType s; definition := definition s;
     answers := updatedAnswers;
     dossier := dossier s;
     pendingQuestions := remainingQuestions;
     researchPlan := researchPlan s; citations := citations s;
     confidence := inject_Z confidence';
     readyToGenerate := readyToGenerate';
     template := template s; title := title s;
     processedMessageIds := processedMessageIds s;
     lastAskedQuestionId := None |}.

(** The pending question that the previous turn asked, if any. *)
Definition askedQuestion (s : DocSessionState) : option QuestionPlanItem :=
  if Js.truthy (lastAskedQuestionId s) then
    List.find (fun q => bool_decide (Some (qp_id q) = lastAskedQuestionId s))
              (pendingQuestions s)
  else None.

(** The tail of [processDocSessionMessages], from [readyIntent] on, as a
    function of the session [s1] that carries the extended ledger and the
    merged details: the asked question is answered, or
    [lastAskedQuestionId] is cleared, and a readiness utterance then forces
    readiness. *)
Definition afterLedger (s1 : DocSessionState) (text : string) (now : Z)
    : DocSessionState :=
  let s2 :=
    if Js.truthy (lastAskedQuestionId s1) then
      match askedQuestion s1 with
      | Some tq =>
          if negb (detectReadyIntent text)
          then answerAskedQuestion s1 tq text now
          else setLastAskedQuestionId None s1
      | None => setLastAskedQuestionId None s1
      end
    else s1 in
  if negb (readyToGenerate s2) && detectReadyIntent text
  then setReadyToGenerate true s2 else s2.

Section WithDetailExtractor.

(** [extractProjectUserDetails]: the JSON object embedded in the message,
    if any, found with [JSON.parse]. *)
Variable extractProjectUserDetails : string -> option ProjectUserDetails.

Definition processDocSessionMessages (session : DocSessionState)
    (messages : list BaseMessage) (now : Z) : DocSessionState :=
  match getLatestHumanMessage messages with
  | None => session
  | Some latestHuman =>
      let messageId := getDeterministicMessageId latestHuman in
      if match messageId with
         | Some i => bool_decide (i ∈ processedMessageIds session)
         | None => false
         end
      then session
      else
        let updatedSession0 :=
          match messageId with
          | Some i =>
              setProcessedMessageIds (processedMessageIds session ++ [i]) session
          | None => session
          end in
        let content := messageText latestHuman in
        let trimmedContent := Js.trim content in
        if Js.isEmpty trimmedContent then updatedSession0
        else
          let updatedSession1 :=
            mergeProjectUserDetails updatedSession0
              (extractProjectUserDetails trimmedContent) in
          let readyIntent := detectReadyIntent trimmedContent in
          let updatedSession2 :=
            if Js.truthy (lastAskedQuestionId updatedSession1) then
              let targetQuestion :=
                List.find
                  (fun q => bool_decide
                              (Some (qp_id q) = lastAskedQuestionId updatedSession1))
                  (pendingQuestions updatedSession1) in
              match targetQuestion with
              | Some tq =>
                  if negb readyIntent
                  then answerAskedQuestion updatedSession1 tq trimmedContent now
                  else setLastAskedQuestionId None updatedSession1
              | None => setLastAskedQuestionId None updatedSession1
              end
            else updatedSession1 in
          if negb (readyToGenerate updatedSession2) && readyIntent
          then setReadyToGenerate true updatedSession2
          else updatedSession2
  end.

(** The session part of [replyToGeneralInput]: an active session is
    processed, and the question to ask next, none when ready, is recorded
    as [lastAskedQuestionId]. *)
Definition replyToGeneralInput (docsState : DocSessionState)
    (messages : list BaseMessage) (now : Z) : DocSessionState :=
  if active docsState then
    let updatedSession := processDocSessionMessages docsState messages now in
    let nextQuestion :=
      if readyToGenerate updatedSession then None
      else Session.findNextQuestion updatedSession in
    if bool_decide (qp_id <$> nextQuestion = lastAskedQuestionId updatedSession)
    then updatedSession
    else setLastAskedQuestionId (qp_id <$> nextQuestion) updatedSession
  else docsState.

(** A conversation: the message lists and clock readings of successive
    turns, run through the reply node. *)
Fixpoint replyTurns (docsState : DocSessionState)
    (turns : list (list BaseMessage * Z)) : DocSessionState :=
  match turns with
  | [] => docsState
  | (messages, now) :: rest =>
      replyTurns (replyToGeneralInput docsState messages now) rest
  end.

End WithDetailExtractor.

(** *** Finding the JSON details in a message *)

(** The state of the scan of [extractJsonSegments]: the segments found so
    far, the stack of the positions of the braces still open (the last one
    pushed first) and [start], the position of the brace that opened the
    segment being read, [-1] when there is none. *)
Record SegmentScan := {
  sc_results : list string;
  sc_stack : list nat;
  sc_start : Z
}.

(** The body of the loop over [raw], at position [index]. *)
Definition scanChar (raw : string) (st : SegmentScan) (index : nat)
    (char : ascii) : SegmentScan :=
  if Ascii.eqb char "{" then
    {| sc_results := sc_results st;
       sc_stack := index :: sc_stack st;
       sc_start :=
         match sc_stack st with
         | [] => Z.of_nat index
         | _ :: _ => sc_start st
         end |}
  else if Ascii.eqb char "}" then
    match sc_stack st with
    | [] => st
    | _ :: popped =>
        if bool_decide (popped = []) && negb (sc_start st =? -1)%Z then
          {| sc_results :=
               sc_results st
               ++ [Js.slice (Z.to_nat (sc_start st)) (Z.of_nat index + 1) raw];
             sc_stack := popped;
             sc_start := (-1)%Z |}
        else
          {| sc_results := sc_results st;
             sc_stack := popped;
             sc_start := sc_start st |}
    end
  else st.

Fixpoint scanFrom (raw : string) (index : nat) (rest : string)
    (st : SegmentScan) : SegmentScan :=
  match rest with
  | EmptyString => st
  | String char rest' =>
      scanFrom raw (S index) rest' (scanChar raw st index char)
  end.

Definition extractJsonSegments (raw : string) : list string :=
  sc_results
    (scanFrom raw 0 raw {| sc_results := []; sc_stack := []; sc_start := (-1)%Z |}).

Section WithJsonParser.

(** [safeParseJson] followed by [isProjectUserDetails]: the details of the
    object that the text is the JSON of; [None] when [JSON.parse] throws or
    the value parsed is no object with a [project] or a [user] key. *)
Variable parseDetails : string -> option ProjectUserDetails.

Definition extractProjectUserDetails (raw : string)
    : option ProjectUserDetails :=
  let trimmed := Js.trim raw in
  if Js.isEmpty trimmed then None
  else
    match parseDetails trimmed with
    | Some direct => Some direct
    | None =>
        match List.find (fun segment => bool_decide (is_Some (parseDetails segment)))
                        (extractJsonSegments trimmed) with
        | Some segment => parseDetails segment
        | None => None
        end
    end.

End WithJsonParser.

(** [getFieldLabel]: the label of the declared field of that id, a required
    field before an optional one, or the id itself. *)
Definition getFieldLabel (session : DocSessionState) (fieldId : string)
    : string :=
  let d := definition session in
  match List.find (fun field => String.eqb (rs_id field) fieldId)
                  (dd_required_fields d) with
  | Some required => rs_label required
  | None =>
      match List.find (fun field => String.eqb (rs_id field) fieldId)
                      (dd_optional_fields d) with
      | Some optional => rs_label optional
      | None => fieldId
      end
  end.

End Reply.

(** ** open-canvas/nodes/concept-note/user-intake.ts *)

Module Intake.

Definition MAX_QUESTIONS_PER_PROMPT : nat := 4.
Definition MIN_DESCRIPTION_LENGTH : nat := 80.

Record OutputPreferences := {
  op_format : option string;
  op_length : option string;
  op_includeVisuals : option bool
}.

(** [UserInputs] of concept-note-state.ts; every member is optional. *)
Record UserInputs := {
  ui_title : option string;
  ui_description : option string;
  ui_targetAudience : option string;
  ui_budget : option string;
  ui_timeline : option string;
  ui_scope : option string;
  ui_requirements : option (list string);
  ui_objectives : option (list string);
  ui_keyActivities : option (list string);
  ui_keyChallenges : option (list string);
  ui_successMetrics : option (list string);
  ui_keyPartners : option (list string);
  ui_outputPreferences : option OutputPreferences
}.

Definition noInputs : UserInputs :=
  {| ui_title := None; ui_description := None; ui_targetAudience := None;
     ui_budget := None; ui_timeline := None; ui_scope := None;
     ui_requirements := None; ui_objectives := None; ui_keyActivities := None;
     ui_keyChallenges := None; ui_successMetrics := None; ui_keyPartners := None;
     ui_outputPreferences := None |}.

(** [keyof UserInputs] *)
Inductive Field :=
| FTitle | FDescription | FTargetAudience | FBudget | FTimeline | FScope
| FRequirements | FObjectives | FKeyActivities | FKeyChallenges
| FSuccessMetrics | FKeyPartners | FOutputPreferences.

Definition fieldName (f : Field) : string :=
  match f with
  | FTitle => "title" | FDescription => "description"
  | FTargetAudience => "targetAudience" | FBudget => "budget"
  | FTimeline => "timeline" | FScope => "scope"
  | FRequirements => "requirements" | FObjectives => "objectives"
  | FKeyActivities => "keyActivities" | FKeyChallenges => "keyChallenges"
  | FSuccessMetrics => "successMetrics" | FKeyPartners => "keyPartners"
  | FOutputPreferences => "outputPreferences"
  end.

Definition Field_eqb (a b : Field) : bool :=
  String.eqb (fieldName a) (fieldName b).

(** The [field] of a clarifying question. *)
Inductive QuestionField :=
| UserField (f : Field)
| ProblemContext
| Constraints
| Dependencies.

Definition questionFieldName (k : QuestionField) : string :=
  match k with
  | UserField f => fieldName f
  | ProblemContext => "problem_context"
  | Constraints => "constraints"
  | Dependencies => "dependencies"
  end.

Definition QuestionField_eqb (a b : QuestionField) : bool :=
  String.eqb (questionFieldName a) (questionFieldName b).

Inductive QuestionStatus := Pending | Answered | Assumed.

Record ClarifyingQuestion := {
  cq_id : string;
  cq_field : QuestionField;
  cq_question : string;
  cq_rationale : string;
  cq_required : bool;
  cq_status : QuestionStatus;
  cq_timesAsked : Z;
  cq_lastAskedAt : string;
  cq_assumptionSuggestion : option string
}.

Record ClarityBlueprintEntry := {
  be_field : Field;
  be_question : string;
  be_rationale : string;
  be_required : bool;
  be_assumptionSuggestion : option string;
  be_priority : Z;
  be_followUpNeeded : UserInputs -> bool
}.

(** [!xs || xs.length === 0] *)
Definition missingList (o : option (list string)) : bool :=
  match o with
  | Some (_ :: _) => false
  | _ => true
  end.

Definition GENERIC_PHRASES : list string :=
  ["concept note"; "project concept"; "project proposal"; "concept paper";
   "proposal"].

Definition isGenericTitle (title : option string) : bool :=
  if negb (Js.truthy title) then true
  else
    let normalized :=
      Js.toLowerCase (Js.trim (match title with Some t => t | None => "" end)) in
    if (String.length normalized <=? 6)%nat then true
    else existsb (String.eqb normalized) GENERIC_PHRASES.

Definition titleEntry : ClarityBlueprintEntry :=
  {| be_field := FTitle;
     be_question := "What working title should we use for this project or initiative?";
     be_rationale := "A clear title helps stakeholders quickly understand the concept note.";
     be_required := true;
     be_assumptionSuggestion := Some "I can suggest a working title if you'd like me to propose one.";
     be_priority := 1;
     be_followUpNeeded := fun inputs =>
       negb (Js.truthy (ui_title inputs)) || isGenericTitle (ui_title inputs) |}.

Definition descriptionEntry : ClarityBlueprintEntry :=
  {| be_field := FDescription;
     be_question := "What challenge are we addressing and what change do you want to see?";
     be_rationale := "The description anchors every other section of the concept note.";
     be_required := true;
     be_assumptionSuggestion := Some "If it's easier, share a few bullet points and I'll shape the narrative.";
     be_priority := 2;
     be_followUpNeeded := fun inputs =>
       negb (Js.truthy (ui_description inputs))
       || (String.length
             (Js.trim (match ui_description inputs with
                       | Some d => d | None => "" end))
           <? MIN_DESCRIPTION_LENGTH)%nat |}.

Definition objectivesEntry : ClarityBlueprintEntry :=
  {| be_field := FObjectives;
     be_question := "What are the top 2–3 objectives or outcomes you want from the project?";
     be_rationale := "Objectives steer scope, success metrics, and stakeholder expectations.";
     be_required := false;
     be_assumptionSuggestion := Some "I can draft provisional objectives based on the problem we define.";
     be_priority := 3;
     be_followUpNeeded := fun inputs => missingList (ui_objectives inputs) |}.

Definition targetAudienceEntry : ClarityBlueprintEntry :=
  {| be_field := FTargetAudience;
     be_question := "Who are the primary stakeholders or beneficiaries we should plan this for?";
     be_rationale := "Audience definitions tailor messaging, tone, and success criteria.";
     be_required := false;
     be_assumptionSuggestion := Some "We can assume a general stakeholder audience if unspecified.";
     be_priority := 4;
     be_followUpNeeded := fun inputs => negb (Js.truthy (ui_targetAudience inputs)) |}.

Definition timelineEntry : ClarityBlueprintEntry :=
  {| be_field := FTimeline;
     be_question := "What timeline or key milestones are you targeting?";
     be_rationale := "Schedule expectations influence the phasing and resourcing story.";
     be_required := false;
     be_assumptionSuggestion := Some "I can assume a 6–12 month rollout if you don't have a timeline yet.";
     be_priority := 5;
     be_followUpNeeded := fun inputs => negb (Js.truthy (ui_timeline inputs)) |}.

Definition budgetEntry : ClarityBlueprintEntry :=
  {| be_field := FBudget;
     be_question := "Do you have a working budget or funding envelope in mind?";
     be_rationale := "Budget guidance helps shape scope and the investment narrative.";
     be_required := false;
     be_assumptionSuggestion := Some "We can note that budget will be confirmed during planning.";
     be_priority := 6;
     be_followUpNeeded := fun inputs => negb (Js.truthy (ui_budget inputs)) |}.

Definition scopeEntry : ClarityBlueprintEntry :=
  {| be_field := FScope;
     be_question := "Is there a geographic or organizational scope we should design around?";
     be_rationale := "Scope decisions influence compliance, partnerships, and delivery model.";
     be_required := false;
     be_assumptionSuggestion := Some "I'll assume a local or regional scope if nothing specific is set.";
     be_priority := 7;
     be_followUpNeeded := fun inputs => negb (Js.truthy (ui_scope inputs)) |}.

Definition keyActivitiesEntry : ClarityBlueprintEntry :=
  {| be_field := FKeyActivities;
     be_question := "What major activities or workstreams have you considered so far?";
     be_rationale := "Activities help size the effort and align expectations.";
     be_required := false;
     be_assumptionSuggestion := Some "I can outline a typical phased delivery plan if needed.";
     be_priority := 8;
     be_followUpNeeded := fun inputs => missingList (ui_keyActivities inputs) |}.

Definition keyChallengesEntry : ClarityBlueprintEntry :=
  {| be_field := FKeyChallenges;
     be_question := "Any known risks, constraints, or sensitivities we should factor in?";
     be_rationale := "Calling out risks early lets us plan mitigations in the concept note.";
     be_required := false;
     be_assumptionSuggestion := Some "I'll highlight standard change management and resourcing risks.";
     be_priority := 9;
     be_followUpNeeded := fun inputs => missingList (ui_keyChallenges inputs) |}.

Definition successMetricsEntry : ClarityBlueprintEntry :=
  {| be_field := FSuccessMetrics;
     be_question := "How will you know this project worked? Any KPIs or signals of success?";
     be_rationale := "Success metrics tie objectives to measurable outcomes.";
     be_required := false;
     be_assumptionSuggestion := Some "I can draft provisional KPIs aligned to the objectives.";
     be_priority := 10;
     be_followUpNeeded := fun inputs => missingList (ui_successMetrics inputs) |}.

Definition keyPartnersEntry : ClarityBlueprintEntry :=
  {| be_field := FKeyPartners;
     be_question := "Are there partners, departments, or champions we should call out?";
     be_rationale := "Listing partners strengthens the delivery plan and governance model.";
     be_required := false;
     be_assumptionSuggestion := Some "I can list typical internal sponsors and external collaborators.";
     be_priority := 11;
     be_followUpNeeded := fun inputs => missingList (ui_keyPartners inputs) |}.

Definition CLARITY_BLUEPRINT : list ClarityBlueprintEntry :=
  [ titleEntry;
    descriptionEntry;
    objectivesEntry;
    targetAudienceEntry;
    timelineEntry;
    budgetEntry;
    scopeEntry;
    keyActivitiesEntry;
    keyChallengesEntry;
    successMetricsEntry;
    keyPartnersEntry ].

(** [BLUEPRINT_LOOKUP.get(field)]: in a [Map] built from entries the last
    entry of a key is the one kept. *)
Definition BLUEPRINT_LOOKUP (f : Field) : option ClarityBlueprintEntry :=
  List.find (fun e => Field_eqb (be_field e) f) (rev CLARITY_BLUEPRINT).

(** *** Merging *)

(** [.map(item => item.trim()).filter(item => item.length > 0)] *)
Definition trimmedNonEmpty (l : list string) : list string :=
  List.filter (fun item => negb (Js.isEmpty item)) (List.map Js.trim l).

(** [Array.from(new Set(l))]: the first occurrence of each entry, in order. *)
Fixpoint uniqueFrom (seen l : list string) : list string :=
  match l with
  | [] => []
  | x :: r =>
      if existsb (String.eqb x) seen then uniqueFrom seen r
      else x :: uniqueFrom (x :: seen) r
  end.

Definition unique (l : list string) : list string := uniqueFrom [] l.

Definition orEmpty (o : option (list string)) : list string :=
  match o with Some l => l | None => [] end.

Definition mergeStringLists (existing incoming : option (list string))
    : option (list string) :=
  let combined := trimmedNonEmpty (orEmpty existing ++ orEmpty incoming) in
  match unique combined with
  | [] => existing
  | u => Some u
  end.

(** [if (updates.k) merged.k = updates.k] for a string member. *)
Definition overwriteIfTruthy (existing update : option string) : option string :=
  if Js.truthy update then update else existing.

(** [if (updates.k) merged.k = mergeStringLists(existing.k, updates.k)]: an
    array, even an empty one, is truthy. *)
Definition mergeIfPresent (existing update : option (list string))
    : option (list string) :=
  match update with
  | Some _ => mergeStringLists existing update
  | None => existing
  end.

Definition firstSome {A : Type} (a b : option A) : option A :=
  match a with Some _ => a | None => b end.

(** [{ ...existing.outputPreferences, ...updates.outputPreferences }] *)
Definition mergePreferences (existing update : option OutputPreferences)
    : option OutputPreferences :=
  match update with
  | None => existing
  | Some u =>
      match existing with
      | None => Some u
      | Some e =>
          Some {| op_format := firstSome (op_format u) (op_format e);
                  op_length := firstSome (op_length u) (op_length e);
                  op_includeVisuals :=
                    firstSome (op_includeVisuals u) (op_includeVisuals e) |}
      end
  end.

Definition mergeUserInputs (existing updates : UserInputs) : UserInputs :=
  {| ui_title := overwriteIfTruthy (ui_title existing) (ui_title updates);
     ui_description :=
       overwriteIfTruthy (ui_description existing) (ui_description updates);
     ui_targetAudience :=
       overwriteIfTruthy (ui_targetAudience existing) (ui_targetAudience updates);
     ui_budget := overwriteIfTruthy (ui_budget existing) (ui_budget updates);
     ui_timeline := overwriteIfTruthy (ui_timeline existing) (ui_timeline updates);
     ui_scope := overwriteIfTruthy (ui_scope existing) (ui_scope updates);
     ui_requirements :=
       mergeIfPresent (ui_requirements existing) (ui_requirements updates);
     ui_objectives :=
       mergeIfPresent (ui_objectives existing) (ui_objectives updates);
     ui_keyActivities :=
       mergeIfPresent (ui_keyActivities existing) (ui_keyActivities updates);
     ui_keyChallenges :=
       mergeIfPresent (ui_keyChallenges existing) (ui_keyChallenges updates);
     ui_successMetrics :=
       mergeIfPresent (ui_successMetrics existing) (ui_successMetrics updates);
     ui_keyPartners :=
       mergeIfPresent (ui_keyPartners existing) (ui_keyPartners updates);
     ui_outputPreferences :=
       mergePreferences (ui_outputPreferences existing)
                        (ui_outputPreferences updates) |}.

(** *** Assumptions *)

Definition didUserRequestAssumptions (content : string) : bool :=
  let normalized := Js.toLowerCase content in
  if Js.isEmpty normalized then false
  else
    let explicitAssumption :=
      Js.includes normalized "you can assume"
      || Js.includes normalized "feel free to assume" in
    let proceedLanguage :=
      existsb (Js.includes normalized)
              ["proceed"; "go ahead"; "continue"; "carry on"; "keep going"]
      && existsb (Js.includes normalized)
                 ["assume"; "assumption"; "decide"; "estimate";
                  "use your judgment"; "make a call"] in
    explicitAssumption || proceedLanguage.

(** Record updates [{ ...inputs, k: v }]; an assignment [inputs.k = v]
    passes [Some v]. *)
Definition setTitle (v : option string) (i : UserInputs) : UserInputs :=
  {| ui_title := v; ui_description := ui_description i;
     ui_targetAudience := ui_targetAudience i; ui_budget := ui_budget i;
     ui_timeline := ui_timeline i; ui_scope := ui_scope i;
     ui_requirements := ui_requirements i; ui_objectives := ui_objectives i;
     ui_keyActivities := ui_keyActivities i;
     ui_keyChallenges := ui_keyChallenges i;
     ui_successMetrics := ui_successMetrics i;
     ui_keyPartners := ui_keyPartners i;
     ui_outputPreferences := ui_outputPreferences i |}.

Definition setTargetAudience (v : option string) (i : UserInputs) : UserInputs :=
  {| ui_title := ui_title i; ui_description := ui_description i;
     ui_targetAudience := v; ui_budget := ui_budget i;
     ui_timeline := ui_timeline i; ui_scope := ui_scope i;
     ui_requirements := ui_requirements i; ui_objectives := ui_objectives i;
     ui_keyActivities := ui_keyActivities i;
     ui_keyChallenges := ui_keyChallenges i;
     ui_successMetrics := ui_successMetrics i;
     ui_keyPartners := ui_keyPartners i;
     ui_outputPreferences := ui_outputPreferences i |}.

Definition setBudget (v : option string) (i : UserInputs) : UserInputs :=
  {| ui_title := ui_title i; ui_description := ui_description i;
     ui_targetAudience := ui_targetAudience i; ui_budget := v;
     ui_timeline := ui_timeline i; ui_scope := ui_scope i;
     ui_requirements := ui_requirements i; ui_objectives := ui_objectives i;
     ui_keyActivities := ui_keyActivities i;
     ui_keyChallenges := ui_keyChallenges i;
     ui_successMetrics := ui_successMetrics i;
     ui_keyPartners := ui_keyPartners i;
     ui_outputPreferences := ui_outputPreferences i |}.

Definition setTimeline (v : option string) (i : UserInputs) : UserInputs :=
  {| ui_title := ui_title i; ui_description := ui_description i;
     ui_targetAudience := ui_targetAudience i; ui_budget := ui_budget i;
     ui_timeline := v; ui_scope := ui_scope i;
     ui_requirements := ui_requirements i; ui_objectives := ui_objectives i;
     ui_keyActivities := ui_keyActivities i;
     ui_keyChallenges := ui_keyChallenges i;
     ui_successMetrics := ui_successMetrics i;
     ui_keyPartners := ui_keyPartners i;
     ui_outputPreferences := ui_outputPreferences i |}.

Definition setScope (v : option string) (i : UserInputs) : UserInputs :=
  {| ui_title := ui_title i; ui_description := ui_description i;
     ui_targetAudience := ui_targetAudience i; ui_budget := ui_budget i;
     ui_timeline := ui_timeline i; ui_scope := v;
     ui_requirements := ui_requirements i; ui_objectives := ui_objectives i;
     ui_keyActivities := ui_keyActivities i;
     ui_keyChallenges := ui_keyChallenges i;
     ui_successMetrics := ui_successMetrics i;
     ui_keyPartners := ui_keyPartners i;
     ui_outputPreferences := ui_outputPreferences i |}.

Definition setRequirements (v : option (list string)) (i : UserInputs) : UserInputs :=
  {| ui_title := ui_title i; ui_description := ui_description i;
     ui_targetAudience := ui_targetAudience i; ui_budget := ui_budget i;
     ui_timeline := ui_timeline i; ui_scope := ui_scope i;
     ui_requirements := v; ui_objectives := ui_objectives i;
     ui_keyActivities := ui_keyActivities i;
     ui_keyChallenges := ui_keyChallenges i;
     ui_successMetrics := ui_successMetrics i;
     ui_keyPartners := ui_keyPartners i;
     ui_outputPreferences := ui_outputPreferences i |}.

Definition setObjectives (v : option (list string)) (i : UserInputs) : UserInputs :=
  {| ui_title := ui_title i; ui_description := ui_description i;
     ui_targetAudience := ui_targetAudience i; ui_budget := ui_budget i;
     ui_timeline := ui_timeline i; ui_scope := ui_scope i;
     ui_requirements := ui_requirements i; ui_objectives := v;
     ui_keyActivities := ui_keyActivities i;
     ui_keyChallenges := ui_keyChallenges i;
     ui_successMetrics := ui_successMetrics i;
     ui_keyPartners := ui_keyPartners i;
     ui_outputPreferences := ui_outputPreferences i |}.

Definition setKeyActivities (v : option (list string)) (i : UserInputs) : UserInputs :=
  {| ui_title := ui_title i; ui_description := ui_description i;
     ui_targetAudience := ui_targetAudience i; ui_budget := ui_budget i;
     ui_timeline := ui_timeline i; ui_scope := ui_scope i;
     ui_requirements := ui_requirements i; ui_objectives := ui_objectives i;
     ui_keyActivities := v;
     ui_keyChallenges := ui_keyChallenges i;
     ui_successMetrics := ui_successMetrics i;
     ui_keyPartners := ui_keyPartners i;
     ui_outputPreferences := ui_outputPreferences i |}.

Definition setKeyChallenges (v : option (list string)) (i : UserInputs) : UserInputs :=
  {| ui_title := ui_title i; ui_description := ui_description i;
     ui_targetAudience := ui_targetAudience i; ui_budget := ui_budget i;
     ui_timeline := ui_timeline i; ui_scope := ui_scope i;
     ui_requirements := ui_requirements i; ui_objectives := ui_objectives i;
     ui_keyActivities := ui_keyActivities i;
     ui_keyChallenges := v;
     ui_successMetrics := ui_successMetrics i;
     ui_keyPartners := ui_keyPartners i;
     ui_outputPreferences := ui_outputPreferences i |}.

Definition setSuccessMetrics (v : option (list string)) (i : UserInputs) : UserInputs :=
  {| ui_title := ui_title i; ui_description := ui_description i;
     ui_targetAudience := ui_targetAudience i; ui_budget := ui_budget i;
     ui_timeline := ui_timeline i; ui_scope := ui_scope i;
     ui_requirements := ui_requirements i; ui_objectives := ui_objectives i;
     ui_keyActivities := ui_keyActivities i;
     ui_keyChallenges := ui_keyChallenges i;
     ui_successMetrics := v;
     ui_keyPartners := ui_keyPartners i;
     ui_outputPreferences := ui_outputPreferences i |}.

Definition setKeyPartners (v : option (list string)) (i : UserInputs) : UserInputs :=
  {| ui_title := ui_title i; ui_description := ui_description i;
     ui_targetAudience := ui_targetAudience i; ui_budget := ui_budget i;
     ui_timeline := ui_timeline i; ui_scope := ui_scope i;
     ui_requirements := ui_requirements i; ui_objectives := ui_objectives i;
     ui_keyActivities := ui_keyActivities i;
     ui_keyChallenges := ui_keyChallenges i;
     ui_successMetrics := ui_successMetrics i;
     ui_keyPartners := v;
     ui_outputPreferences := ui_outputPreferences i |}.

Definition isAlphaNumeric (c : ascii) : bool :=
  let n := nat_of_ascii c in
  ((48 <=? n) && (n <=? 57) || (65 <=? n) && (n <=? 90)
   || (97 <=? n) && (n <=? 122))%nat.

(** [s.split(/\s+/)] without the empty strings it may leave at either end;
    the length filter that follows drops those. *)
Fixpoint splitWhitespace (current s : string) : list string :=
  match s with
  | EmptyString => if Js.isEmpty current then [] else [current]
  | String c r =>
      if Js.isWhitespace c
      then if Js.isEmpty current then splitWhitespace EmptyString r
           else current :: splitWhitespace EmptyString r
      else splitWhitespace (current +:+ String c EmptyString) r
  end.

Definition capitalize (value : string) : string :=
  match value with
  | EmptyString => value
  | String c r => String (Js.upperAscii c) (Js.toLowerCase r)
  end.

(** The words of [suggestWorkingTitle]: characters other than letters,
    digits and white space become spaces, the text is split at white space,
    words of more than 3 characters are kept, the first 4 capitalized. *)
Definition titleWords (description : string) : list string :=
  List.map capitalize
    (firstn 4
       (List.filter (fun word => (3 <? String.length word)%nat)
          (splitWhitespace EmptyString
             (Js.mapChars
                (fun c => if isAlphaNumeric c || Js.isWhitespace c then c
                          else " "%char)
                description)))).

(** Every [return] of [suggestWorkingTitle] yields a string. *)
Definition suggestWorkingTitle (inputs : UserInputs) : string :=
  if Js.truthy (ui_title inputs) && negb (isGenericTitle (ui_title inputs))
  then match ui_title inputs with Some t => t | None => "" end
  else
    let description :=
      Js.trim (match ui_description inputs with Some d => d | None => "" end) in
    let words := if Js.isEmpty description then [] else titleWords description in
    if (2 <=? length words)%nat
    then String.concat " " (firstn 3 words) +:+ " Initiative"
    else if Js.truthy (ui_targetAudience inputs)
    then match ui_targetAudience inputs with Some a => a | None => "" end
         +:+ " Concept Initiative"
    else "Strategic Concept Note Initiative".

Definition suggestObjectives (inputs : UserInputs) : list string :=
  unique
    [ "Validate the solution approach through a structured pilot and stakeholder feedback.";
      "Deliver measurable improvements for "
      +:+ (if Js.truthy (ui_targetAudience inputs)
           then match ui_targetAudience inputs with Some a => a | None => "" end
           else "key stakeholders")
      +:+ " within the initial implementation cycle.";
      "Establish governance, success metrics, and a roadmap that enable sustainable scale." ].

(** [applyAssumptionForField]: whether a default was applied, and the
    inputs after the assignment. *)
Definition applyAssumptionForField (field : Field) (inputs : UserInputs)
    : bool * UserInputs :=
  match field with
  | FTitle =>
      let suggestion := suggestWorkingTitle inputs in
      if Js.isEmpty suggestion then (false, inputs)
      else (true, setTitle (Some suggestion) inputs)
  | FObjectives =>
      if missingList (ui_objectives inputs)
      then (true, setObjectives (Some (suggestObjectives inputs)) inputs)
      else (false, inputs)
  | FTargetAudience =>
      if negb (Js.truthy (ui_targetAudience inputs))
      then (true, setTargetAudience (Some "General stakeholders (assumed)") inputs)
      else (false, inputs)
  | FTimeline =>
      if negb (Js.truthy (ui_timeline inputs))
      then (true, setTimeline (Some "Approximately 6–12 months (assumed)") inputs)
      else (false, inputs)
  | FBudget =>
      if negb (Js.truthy (ui_budget inputs))
      then (true, setBudget (Some "Budget to be confirmed during planning (assumed)") inputs)
      else (false, inputs)
  | FScope =>
      if negb (Js.truthy (ui_scope inputs))
      then (true, setScope (Some "Local or regional focus (assumed)") inputs)
      else (false, inputs)
  | FKeyActivities =>
      if missingList (ui_keyActivities inputs)
      then (true, setKeyActivities
                    (Some [ "Discovery and requirements workshops";
                      "Pilot implementation of the core solution";
                      "Evaluation and scale-up planning" ])
                    inputs)
      else (false, inputs)
  | FKeyChallenges =>
      if missingList (ui_keyChallenges inputs)
      then (true, setKeyChallenges
                    (Some [ "Stakeholder alignment and change management";
                      "Resource availability and budget approvals";
                      "Data, compliance, or policy considerations" ])
                    inputs)
      else (false, inputs)
  | FSuccessMetrics =>
      if missingList (ui_successMetrics inputs)
      then (true, setSuccessMetrics
                    (Some [ "Achievement of the primary project objectives";
                      "Stakeholder satisfaction beating target thresholds";
                      "On-time delivery of critical milestones" ])
                    inputs)
      else (false, inputs)
  | FKeyPartners =>
      if missingList (ui_keyPartners inputs)
      then (true, setKeyPartners
                    (Some [ "Executive sponsor or leadership champion";
                      "Core delivery team or PMO";
                      "Key external collaborators or vendors" ])
                    inputs)
      else (false, inputs)
  | FRequirements =>
      if missingList (ui_requirements inputs)
      then (true, setRequirements
                    (Some [ "Detailed functional and non-functional requirements to be confirmed with stakeholders." ])
                    inputs)
      else (false, inputs)
  | FDescription | FOutputPreferences => (false, inputs)
  end.

(** One pass of the loop of [applyAssumptionsIfRequested] over the
    blueprint; the state is the inputs, assigned in place by the source, and
    the set of assumed fields. *)
Definition assumeEntry (st : UserInputs * list Field)
    (entry : ClarityBlueprintEntry) : UserInputs * list Field :=
  let '(inputs, assumedFields) := st in
  if be_followUpNeeded entry inputs then
    let '(assumed, inputs') := applyAssumptionForField (be_field entry) inputs in
    (inputs', if assumed then assumedFields ++ [be_field entry] else assumedFields)
  else st.

Definition applyAssumptionsIfRequested (inputs : UserInputs)
    : UserInputs * list Field :=
  fold_left assumeEntry CLARITY_BLUEPRINT (inputs, []).

(** *** Clarifying questions *)

(** The [questionMap], a [Map] keyed by field whose values are read back in
    insertion order: [set] replaces the value of a key in place and appends
    a new key. *)
Fixpoint mapSet (k : QuestionField) (v : ClarifyingQuestion)
    (m : list (QuestionField * ClarifyingQuestion))
    : list (QuestionField * ClarifyingQuestion) :=
  match m with
  | [] => [(k, v)]
  | (k', v') :: r =>
      if QuestionField_eqb k' k then (k, v) :: r else (k', v') :: mapSet k v r
  end.

Definition mapGet (k : QuestionField)
    (m : list (QuestionField * ClarifyingQuestion)) : option ClarifyingQuestion :=
  match List.find (fun kv => QuestionField_eqb (fst kv) k) m with
  | Some kv => Some (snd kv)
  | None => None
  end.

Definition setStatus (st : QuestionStatus) (q : ClarifyingQuestion)
    : ClarifyingQuestion :=
  {| cq_id := cq_id q; cq_field := cq_field q; cq_question := cq_question q;
     cq_rationale := cq_rationale q; cq_required := cq_required q;
     cq_status := st; cq_timesAsked := cq_timesAsked q;
     cq_lastAskedAt := cq_lastAskedAt q;
     cq_assumptionSuggestion := cq_assumptionSuggestion q |}.

Definition markAsked (now : string) (q : ClarifyingQuestion)
    : ClarifyingQuestion :=
  {| cq_id := cq_id q; cq_field := cq_field q; cq_question := cq_question q;
     cq_rationale := cq_rationale q; cq_required := cq_required q;
     cq_status := cq_status q; cq_timesAsked := (cq_timesAsked q + 1)%Z;
     cq_lastAskedAt := now;
     cq_assumptionSuggestion := cq_assumptionSuggestion q |}.

Definition isPending (q : ClarifyingQuestion) : bool :=
  match cq_status q with Pending => true | _ => false end.

(** [Number.MAX_SAFE_INTEGER] *)
Definition MAX_SAFE_INTEGER : Z := (2 ^ 53 - 1)%Z.

Definition blueprintOf (k : QuestionField) : option ClarityBlueprintEntry :=
  match k with
  | UserField f => BLUEPRINT_LOOKUP f
  | _ => None
  end.

Definition priorityOf (q : ClarifyingQuestion) : Z :=
  match blueprintOf (cq_field q) with
  | Some e => be_priority e
  | None => MAX_SAFE_INTEGER
  end.

(** The comparator of the pending questions is not positive. *)
Definition byBlueprintPriority (a b : ClarifyingQuestion) : bool :=
  if (priorityOf a =? priorityOf b)%Z
  then (cq_timesAsked a <=? cq_timesAsked b)%Z
  else (priorityOf a <? priorityOf b)%Z.

(** The selection loop: a pending question is asked when it was never asked
    or its blueprint entry is required; the loop stops at the cap. *)
Fixpoint selectQuestions (now : string) (pending : list ClarifyingQuestion)
    (chosen : nat) : list ClarifyingQuestion :=
  match pending with
  | [] => []
  | q :: rest =>
      match blueprintOf (cq_field q) with
      | None => selectQuestions now rest chosen
      | Some blueprint =>
          if (cq_timesAsked q =? 0)%Z || be_required blueprint
          then
            if (MAX_QUESTIONS_PER_PROMPT <=? chosen + 1)%nat
            then [markAsked now q]
            else markAsked now q :: selectQuestions now rest (chosen + 1)
          else selectQuestions now rest chosen
      end
  end.

(** One pass of the loop over the blueprint in [prepareClarifyingQuestions];
    [uuid f] is what [uuidv4()] returns when the question of [f] is made. *)
Definition trackEntry (inputs : UserInputs) (assumedFields : list Field)
    (now : string) (uuid : Field -> string)
    (questionMap : list (QuestionField * ClarifyingQuestion))
    (entry : ClarityBlueprintEntry)
    : list (QuestionField * ClarifyingQuestion) :=
  let questionKey := UserField (be_field entry) in
  let existing := mapGet questionKey questionMap in
  if be_followUpNeeded entry inputs then
    match existing with
    | Some q => mapSet questionKey (setStatus Pending q) questionMap
    | None =>
        mapSet questionKey
          {| cq_id := "clarify-" +:+ fieldName (be_field entry) +:+ "-"
                      +:+ uuid (be_field entry);
             cq_field := questionKey;
             cq_question := be_question entry;
             cq_rationale := be_rationale entry;
             cq_required := be_required entry;
             cq_status := Pending;
             cq_timesAsked := 0;
             cq_lastAskedAt := now;
             cq_assumptionSuggestion := be_assumptionSuggestion entry |}
          questionMap
    end
  else
    match existing with
    | Some q =>
        let status :=
          if existsb (Field_eqb (be_field entry)) assumedFields
          then Assumed else Answered in
        mapSet questionKey (setStatus status q) questionMap
    | None => questionMap
    end.

Record PreparedQuestions := {
  updatedQuestions : list ClarifyingQuestion;
  questionsToAsk : list ClarifyingQuestion
}.

Definition prepareClarifyingQuestions
    (existingQuestions : option (list ClarifyingQuestion))
    (inputs : UserInputs) (assumedFields : list Field)
    (now : string) (uuid : Field -> string) : PreparedQuestions :=
  let questionMap0 :=
    fold_left (fun m q => mapSet (cq_field q) q m)
              (match existingQuestions with Some l => l | None => [] end) [] in
  let questionMap1 :=
    fold_left (trackEntry inputs assumedFields now uuid)
              CLARITY_BLUEPRINT questionMap0 in
  let pendingQuestions :=
    Js.stableSort byBlueprintPriority
      (List.filter isPending (List.map snd questionMap1)) in
  let toAsk := selectQuestions now pendingQuestions 0 in
  let questionMap2 :=
    fold_left (fun m q => mapSet (cq_field q) q m) toAsk questionMap1 in
  {| updatedQuestions := List.map snd questionMap2;
     questionsToAsk := toAsk |}.

(** What [userIntakeNode] returns, the prompt texts left out. *)
Record IntakeResult := {
  ir_userInputs : UserInputs;
  ir_clarifyingQuestions : list ClarifyingQuestion;
  ir_questionsToAsk : list ClarifyingQuestion;
  ir_assumedFields : list Field;
  ir_needsUserIntervention : bool;
  ir_conceptNoteStage : string
}.

(** [userIntakeNode] once a human message is found: [userContent] is its
    text and [parsedInputs] what [extractUserInputsFromContent] reads in
    it. *)
Definition userIntakeNode (stateUserInputs : option UserInputs)
    (stateClarifyingQuestions : option (list ClarifyingQuestion))
    (userContent : string) (parsedInputs : UserInputs)
    (now : string) (uuid : Field -> string) : IntakeResult :=
  let existingInputs :=
    match stateUserInputs with Some i => i | None => noInputs end in
  let mergedInputs0 := mergeUserInputs existingInputs parsedInputs in
  let userRequestedAssumptions := didUserRequestAssumptions userContent in
  let '(mergedInputs, assumedFields) :=
    if userRequestedAssumptions
    then applyAssumptionsIfRequested mergedInputs0
    else (mergedInputs0, []) in
  let prepared :=
    prepareClarifyingQuestions stateClarifyingQuestions mergedInputs
                               assumedFields now uuid in
  match questionsToAsk prepared with
  | _ :: _ =>
      {| ir_userInputs := mergedInputs;
         ir_clarifyingQuestions := updatedQuestions prepared;
         ir_questionsToAsk := questionsToAsk prepared;
         ir_assumedFields := assumedFields;
         ir_needsUserIntervention := true;
         ir_conceptNoteStage := "intake" |}
  | [] =>
      {| ir_userInputs := mergedInputs;
         ir_clarifyingQuestions := updatedQuestions prepared;
         ir_questionsToAsk := [];
         ir_assumedFields := assumedFields;
         ir_needsUserIntervention := false;
         ir_conceptNoteStage := "research" |}
  end.

(** *** The outcome of the assumption pass, member by member *)

(** The inputs after [applyAssumptionsIfRequested]: each member with a
    blueprint entry that needs follow-up holds the value that
    [applyAssumptionForField] assigns; the description has no such value. *)
Definition withDefaults (i : UserInputs) : UserInputs :=
  {| ui_title :=
       if be_followUpNeeded titleEntry i
       then Some (suggestWorkingTitle i) else ui_title i;
     ui_description := ui_description i;
     ui_targetAudience :=
       if be_followUpNeeded targetAudienceEntry i
       then Some "General stakeholders (assumed)" else ui_targetAudience i;
     ui_budget :=
       if be_followUpNeeded budgetEntry i
       then Some "Budget to be confirmed during planning (assumed)"
       else ui_budget i;
     ui_timeline :=
       if be_followUpNeeded timelineEntry i
       then Some "Approximately 6–12 months (assumed)" else ui_timeline i;
     ui_scope :=
       if be_followUpNeeded scopeEntry i
       then Some "Local or regional focus (assumed)" else ui_scope i;
     ui_requirements := ui_requirements i;
     ui_objectives :=
       if be_followUpNeeded objectivesEntry i
       then Some (suggestObjectives i) else ui_objectives i;
     ui_keyActivities :=
       if be_followUpNeeded keyActivitiesEntry i
       then Some [ "Discovery and requirements workshops";
                   "Pilot implementation of the core solution";
                   "Evaluation and scale-up planning" ]
       else ui_keyActivities i;
     ui_keyChallenges :=
       if be_followUpNeeded keyChallengesEntry i
       then Some [ "Stakeholder alignment and change management";
                   "Resource availability and budget approvals";
                   "Data, compliance, or policy considerations" ]
       else ui_keyChallenges i;
     ui_successMetrics :=
       if be_followUpNeeded successMetricsEntry i
       then Some [ "Achievement of the primary project objectives";
                   "Stakeholder satisfaction beating target thresholds";
                   "On-time delivery of critical milestones" ]
       else ui_successMetrics i;
     ui_keyPartners :=
       if be_followUpNeeded keyPartnersEntry i
       then Some [ "Executive sponsor or leadership champion";
                   "Core delivery team or PMO";
                   "Key external collaborators or vendors" ]
       else ui_keyPartners i;
     ui_outputPreferences := ui_outputPreferences i |}.

Definition whenNeeded (e : ClarityBlueprintEntry) (i : UserInputs) : list Field :=
  if be_followUpNeeded e i then [be_field e] else [].

(** The fields assumed by the pass, in blueprint order. *)
Definition assumedList (i : UserInputs) : list Field :=
  whenNeeded titleEntry i ++ whenNeeded objectivesEntry i
  ++ whenNeeded targetAudienceEntry i ++ whenNeeded timelineEntry i
  ++ whenNeeded budgetEntry i ++ whenNeeded scopeEntry i
  ++ whenNeeded keyActivitiesEntry i ++ whenNeeded keyChallengesEntry i
  ++ whenNeeded successMetricsEntry i ++ whenNeeded keyPartnersEntry i.

(** The question made for the description, once asked. *)
Definition askedDescription (now : string) (uuid : Field -> string)
    : ClarifyingQuestion :=
  {| cq_id := "clarify-description-" +:+ uuid FDescription;
     cq_field := UserField FDescription;
     cq_question := be_question descriptionEntry;
     cq_rationale := be_rationale descriptionEntry;
     cq_required := true;
     cq_status := Pending;
     cq_timesAsked := 1;
     cq_lastAskedAt := now;
     cq_assumptionSuggestion := be_assumptionSuggestion descriptionEntry |}.

(** *** Text helpers of the intake node *)

(** [truncate] *)
Definition truncate (value : string) (maxLength : Z) : string :=
  if (Z.of_nat (String.length value) <=? maxLength)%Z then value
  else Js.slice 0 (maxLength - 3) value +:+ "...".

(** One match of [/\sand\s/i]. *)
Definition isAndWord (c1 c2 c3 c4 c5 : ascii) : bool :=
  Js.isWhitespace c1
  && Ascii.eqb (Js.lowerAscii c2) "a" && Ascii.eqb (Js.lowerAscii c3) "n"
  && Ascii.eqb (Js.lowerAscii c4) "d"
  && Js.isWhitespace c5.

(** [value.replace(/\sand\s/gi, ", ")]: the matches are taken from the left
    and do not overlap. *)
Fixpoint replaceAnd (s : string) : string :=
  match s with
  | EmptyString => EmptyString
  | String c1 r1 =>
      match r1 with
      | String c2 (String c3 (String c4 (String c5 rest))) =>
          if isAndWord c1 c2 c3 c4 c5
          then String "," (String " " (replaceAnd rest))
          else String c1 (replaceAnd r1)
      | _ => String c1 (replaceAnd r1)
      end
  end.

(** [s.split(re)] for an expression [re] that matches one character of a
    class; [current] is the piece being read. *)
Fixpoint splitOn (sep : ascii -> bool) (current s : string) : list string :=
  match s with
  | EmptyString => [current]
  | String c r =>
      if sep c then current :: splitOn sep EmptyString r
      else splitOn sep (current +:+ String c EmptyString) r
  end.

(** The class [[,;|]]. *)
Definition isListSeparator (c : ascii) : bool :=
  Ascii.eqb c "," || Ascii.eqb c ";" || Ascii.eqb c "|".

Definition splitInlineList (value : string) : list string :=
  List.filter (fun item => negb (Js.isEmpty item))
    (List.map Js.trim (splitOn isListSeparator EmptyString (replaceAnd value))).

(** [block.split(/\r?\n/)]; [current] is the line being read. *)
Fixpoint splitLines (current s : string) : list string :=
  match s with
  | EmptyString => [current]
  | String c r =>
      if Ascii.eqb c (ascii_of_nat 10)
      then current :: splitLines EmptyString r
      else
        match r with
        | String c2 r2 =>
            if Ascii.eqb c (ascii_of_nat 13) && Ascii.eqb c2 (ascii_of_nat 10)
            then current :: splitLines EmptyString r2
            else splitLines (current +:+ String c EmptyString) r
        | EmptyString => [current +:+ String c EmptyString]
        end
  end.

(** The characters of the class [[\-*•\d.)\s]] that are one byte long. *)
Definition isBulletChar (c : ascii) : bool :=
  Ascii.eqb c "-" || Ascii.eqb c "*"
  || ((48 <=? nat_of_ascii c)%nat && (nat_of_ascii c <=? 57)%nat)
  || Ascii.eqb c "." || Ascii.eqb c ")" || Js.isWhitespace c.

(** [line.replace(/^[\-*•\d.)\s]+/, "")]; the bullet U+2022 is the three
    bytes 226, 128, 162. *)
Fixpoint stripBullets (s : string) : string :=
  match s with
  | EmptyString => EmptyString
  | String c1 r1 =>
      if isBulletChar c1 then stripBullets r1
      else
        match r1 with
        | String c2 (String c3 r3) =>
            if Ascii.eqb c1 (ascii_of_nat 226)
               && Ascii.eqb c2 (ascii_of_nat 128)
               && Ascii.eqb c3 (ascii_of_nat 162)
            then stripBullets r3
            else s
        | _ => s
        end
  end.

Definition parseBulletBlock (block : string) : list string :=
  List.filter (fun line => negb (Js.isEmpty line))
    (List.map (fun line => Js.trim (stripBullets line))
       (List.map Js.trim (splitLines EmptyString block))).

End Intake.

(** ** open-canvas/concept-note-state.ts: the reducers of the control
    channels *)

Module ConceptNoteState.
Import Intake.

(** [merged.set(question.id, question)] on a [Map] whose values are read
    back in insertion order. *)
Fixpoint setById (q : ClarifyingQuestion) (merged : list ClarifyingQuestion)
    : list ClarifyingQuestion :=
  match merged with
  | [] => [q]
  | q' :: r =>
      if String.eqb (cq_id q') (cq_id q) then q :: r else q' :: setById q r
  end.

(** The reducer of the [clarifyingQuestions] channel. *)
Definition clarifyingQuestionsReducer
    (state update : option (list ClarifyingQuestion))
    : list ClarifyingQuestion :=
  let existing := match state with Some l => l | None => [] end in
  let incoming := match update with Some l => l | None => [] end in
  fold_left (fun merged question => setById question merged) incoming
    (fold_left (fun merged question => setById question merged) existing []).

(** The reducers [(state, update) => update ?? state ?? d]. *)
Definition conceptNoteStageReducer (state update : option string) : string :=
  match update with
  | Some u => u
  | None => match state with Some s => s | None => "intake" end
  end.

Definition needsUserInterventionReducer (state update : option bool) : bool :=
  match update with
  | Some u => u
  | None => match state with Some s => s | None => false end
  end.

End ConceptNoteState.

(** ** open-canvas/concept-note-graph.ts *)

Module ConceptNoteGraph.

(** The members of the graph state that the router reads. *)
Record ConceptNoteControl := {
  cn_needsUserIntervention : bool;
  cn_conceptNoteStage : string
}.

Inductive Route :=
| ToNode (name : string)
| END.

Definition routeConceptNoteFlow (state : ConceptNoteControl) : Route :=
  if cn_needsUserIntervention state then ToNode "waitForUser"
  else
    let stage := cn_conceptNoteStage state in
    if String.eqb stage "intake" then ToNode "userIntake"
    else if String.eqb stage "research" then ToNode "research"
    else if String.eqb stage "compute" then ToNode "compute"
    else if String.eqb stage "draft" then ToNode "draftGenerator"
    else if String.eqb stage "review" then ToNode "review"
    else if String.eqb stage "export" then ToNode "export"
    else if String.eqb stage "completed" then END
    else ToNode "userIntake".

(** A node's update of the two members, merged by the reducers of the
    state. *)
Definition applyControl (state : ConceptNoteControl)
    (needsUserIntervention : option bool) (conceptNoteStage : option string)
    : ConceptNoteControl :=
  {| cn_needsUserIntervention :=
       ConceptNoteState.needsUserInterventionReducer
         (Some (cn_needsUserIntervention state)) needsUserIntervention;
     cn_conceptNoteStage :=
       ConceptNoteState.conceptNoteStageReducer
         (Some (cn_conceptNoteStage state)) conceptNoteStage |}.

(** [waitForUserNode] clears the flag and leaves the stage. *)
Definition waitForUserNode (state : ConceptNoteControl) : ConceptNoteControl :=
  applyControl state (Some false) None.

Definition routeAfterUserIntervention (state : ConceptNoteControl) : Route :=
  routeConceptNoteFlow state.

(** The state after [userIntakeNode]: without a human message the node
    asks for a brief and stays at the intake stage; otherwise it returns
    what [Intake.userIntakeNode] computes. *)
Definition afterUserIntake (state : ConceptNoteControl)
    (result : option Intake.IntakeResult) : ConceptNoteControl :=
  match result with
  | None => applyControl state (Some true) (Some "intake")
  | Some r =>
      applyControl state (Some (Intake.ir_needsUserIntervention r))
                   (Some (Intake.ir_conceptNoteStage r))
  end.

(** The destinations declared for the conditional edges that leave
    [userIntake]. *)
Definition userIntakeEdges : list Route :=
  [ToNode "research"; ToNode "waitForUser"; END].

End ConceptNoteGraph.

(** ** Sample data used by the examples *)

Module Sample.

Definition field (id : string) (w : option Q) (req : bool) : RequirementSpec :=
  {| rs_id := id; rs_label := id; rs_description := ""; rs_weight := w;
     rs_required := req |}.

Definition question (id : string) (targets : list string) : QuestionSpec :=
  {| qs_id := id; qs_text := id; qs_targets := targets |}.

Definition defn (id : string) (req opt : list RequirementSpec)
    (qs : list QuestionSpec) : DocumentDefinition :=
  {| dd_id := id; dd_name := id; dd_description := ""; dd_stage_hint := None;
     dd_template := "tpl"; dd_template_markdown := None;
     dd_prerequisites := None;
     dd_required_fields := req; dd_optional_fields := opt;
     dd_diagnostic_questions := qs; dd_research_prompts := None |}.



(** Two required fields of weight 1 (the weight left to its default). *)
Definition twoFieldDef : DocumentDefinition :=
  defn "two" [field "a" None true; field "b" None true] []
       [question "q1" ["a"]; question "q2" ["b"]].

(** A raw catalog entry whose only question targets a field, [ghost], that
    the entry does not declare. *)
Definition rawGhostDoc : Catalog.RawDocumentDefinition :=
  {| Catalog.rd_id := "prd"; Catalog.rd_name := "PRD";
     Catalog.rd_description := ""; Catalog.rd_stage_hint := None;
     Catalog.rd_template := "prd.hbs";
     Catalog.rd_pre_requisites_documents := None;
     Catalog.rd_document_template := None;
     Catalog.rd_required_fields :=
       [{| Catalog.rr_id := "overview"; Catalog.rr_label := "Overview";
           Catalog.rr_description := ""; Catalog.rr_weight := None |}];
     Catalog.rd_optional_fields :=
       Some [{| Catalog.rr_id := "risks"; Catalog.rr_label := "Risks";
                Catalog.rr_description := ""; Catalog.rr_weight := None |}];
     Catalog.rd_diagnostic_questions :=
       Some [{| Catalog.rq_id := "q1"; Catalog.rq_text := "What is it?";
                Catalog.rq_targets := ["ghost"] |};
             {| Catalog.rq_id := "q2"; Catalog.rq_text := "Any risks?";
                Catalog.rq_targets := ["overview"; "risks"] |}];
     Catalog.rd_research_prompts := None |}.

(** A definition with a weighted required field, an optional field without
    weight and two questions. *)
Definition plannerDef : DocumentDefinition :=
  defn "plan" [field "a" (Some (2 # 1)%Q) true; field "b" None true]
       [field "c" None false]
       [question "q1" ["a"; "c"]; question "q2" ["b"]].

(** Four required fields; the first question targets three of them. *)
Definition fourFieldDef : DocumentDefinition :=
  defn "four"
       [field "a" None true; field "b" None true; field "c" None true;
        field "d" None true] []
       [question "q1" ["a"; "b"; "c"]; question "q2" ["d"]].

Definition human (id text : string) : BaseMessage :=
  {| msg_type := "human"; msg_id := Some id; msg_kwargs_id := None;
     msg_additional_kwargs_id := None; msg_text := Some text |}.

(** A message that carries no JSON details. *)
Definition noDetails (_ : string) : option Reply.ProjectUserDetails := None.

(** An extraction that found nothing. *)
Definition nothingExtracted : DocsSession.Extraction :=
  {| DocsSession.ex_answers := []; DocsSession.ex_title := None |}.

Definition clock (i : nat) : Z := (1000 + Z.of_nat i)%Z.

(** The session of [fourFieldDef] after a first reply turn: [q1] was asked. *)
Definition askedQ1 : DocSessionState :=
  Reply.replyToGeneralInput noDetails (Session.createDocSession fourFieldDef)
    [human "m1" "hi"] 1.

(** The session of [twoFieldDef] after the user said [we're ready]. *)
Definition saidReady : DocSessionState :=
  Reply.replyToGeneralInput noDetails (Session.createDocSession twoFieldDef)
    [human "m1" "we're ready"] 1.

(** A session state that is ready while a question is recorded as asked. *)
Definition readyButAsked : DocSessionState :=
  setLastAskedQuestionId (Some "q1")
    (setReadyToGenerate true (Session.createDocSession twoFieldDef)).

(** The plan item of [q1] in [fourFieldDef]: weight 1 + 1 + 1 plus 1/1. *)
Definition q1Item : QuestionPlanItem :=
  {| qp_id := "q1"; qp_text := "q1"; qp_targets := ["a"; "b"; "c"];
     qp_priority := (4 # 1)%Q |}.

(** The message of scenario D and what the intake patterns read in it: the
    whole line is taken as the title, nothing else matches. *)
Definition assumeMessage : string := "you can assume the rest and proceed".

Definition assumeParsed : Intake.UserInputs :=
  Intake.setTitle (Some assumeMessage) Intake.noInputs.

Definition uuid (f : Intake.Field) : string := "id-of-" +:+ Intake.fieldName f.

(** The extraction of one answer, for field [a]. *)
Definition extractedA : DocsSession.Extraction :=
  {| DocsSession.ex_answers :=
       [{| DocsSession.ea_fieldId := "a"; DocsSession.ea_value := " solar ";
           DocsSession.ea_confidence := (9 # 10)%Q |}];
     DocsSession.ex_title := None |}.

Definition dossierA : gmap string string := {[ "a" := "x" ]}.

End Sample.

(** ** The properties as the specification words them

    Each is a predicate over the inputs of the function it is about, so that
    it can be evaluated at a concrete input; with them, the notions of the
    specification that the theorems are stated in. *)

Module Stated.
Import Scoring.
Local Open Scope Q_scope.










(** The readiness rule of the specification, evaluated on the session after
    the turn and on the text of the message: the scorer's overall result is
    at least 0.75 with no required field missing, or the message is a
    readiness utterance, or no question is pending. *)
Definition readinessRule (s' : DocSessionState) (text : string) : bool :=
  let r := computeConfidence (definition s') (dossier s') (citations s') in
  (Qle_bool (3 # 4) (overall r)
   && Nat.eqb (length (missingRequired r)) 0)
  || Reply.detectReadyIntent text
  || Nat.eqb (length (pendingQuestions s')) 0.

(** The same rule read with the confidence of the reply node, the
    percentage of required fields that have a non-blank answer. *)
Definition readinessRuleByCoverage (s' : DocSessionState) (text : string)
    : bool :=
  ((75 <=? Session.calculateCoverageConfidence (definition s') (answers s'))%Z
   && forallb (fun f => Session.isAnswered (answers s') (rs_id f))
              (dd_required_fields (definition s')))
  || Reply.detectReadyIntent text
  || Nat.eqb (length (pendingQuestions s')) 0.

Definition reply_follows_rule
    (extract : string -> option Reply.ProjectUserDetails)
    (s : DocSessionState) (messages : list BaseMessage) (now : Z) : Prop :=
  forall m, getLatestHumanMessage messages = Some m ->
    let s' := Reply.processDocSessionMessages extract s messages now in
    readyToGenerate s' = readinessRule s' (messageText m).

Definition reply_follows_rule_by_coverage
    (extract : string -> option Reply.ProjectUserDetails)
    (s : DocSessionState) (messages : list BaseMessage) (now : Z) : Prop :=
  forall m, getLatestHumanMessage messages = Some m ->
    let s' := Reply.processDocSessionMessages extract s messages now in
    readyToGenerate s' = readinessRuleByCoverage s' (messageText m).

Definition handler_follows_rule (catalog : gmap string DocumentDefinition)
    (s : DocSessionState) (messages : list BaseMessage)
    (response : option DocsSession.Extraction) (now : nat -> Z) : Prop :=
  forall m s' asked, getLatestHumanMessage messages = Some m ->
    DocsSession.maybeHandleDocSession catalog (Some s) messages response now
    = DocsSession.Continue s' asked ->
    readyToGenerate s' = readinessRule s' (messageText m).

(** Readiness is never taken back by a turn. *)
Definition reply_keeps_ready
    (extract : string -> option Reply.ProjectUserDetails)
    (s : DocSessionState) (messages : list BaseMessage) (now : Z) : Prop :=
  readyToGenerate s = true ->
  readyToGenerate (Reply.processDocSessionMessages extract s messages now) = true.

Definition handler_keeps_ready (catalog : gmap string DocumentDefinition)
    (s : DocSessionState) (messages : list BaseMessage)
    (response : option DocsSession.Extraction) (now : nat -> Z) : Prop :=
  readyToGenerate s = true ->
  forall s' asked,
    DocsSession.maybeHandleDocSession catalog (Some s) messages response now
    = DocsSession.Continue s' asked ->
    readyToGenerate s' = true.

(** The extracted answer gives field [fieldId] a non-blank value. *)
Definition provides (fieldId : string) (a : DocsSession.ExtractedAnswer) : bool :=
  String.eqb (DocsSession.ea_fieldId a) fieldId
  && negb (Js.isEmpty (Js.trim (DocsSession.ea_value a))).

(** The time stamps recorded for a field so far. *)
Definition history (s : DocSessionState) (fieldId : string) : list Z :=
  match answers s !! fieldId with
  | Some r => ar_timestamps r
  | None => []
  end.

(** Scenario D of the specification: with no prior inputs and a message
    containing the phrase below, every blueprint entry that needs follow-up
    after the merge gets its default, its tracked question is marked
    assumed, and no question is asked this turn. *)
Definition SCENARIO_D_PHRASE : string := "you can assume the rest and proceed".

Definition scenarioD (content : string) (parsed : Intake.UserInputs)
    (now : string) (uuid : Intake.Field -> string) : Prop :=
  Js.includes content SCENARIO_D_PHRASE = true ->
  let merged := Intake.mergeUserInputs Intake.noInputs parsed in
  let r := Intake.userIntakeNode None None content parsed now uuid in
  (forall e, In e Intake.CLARITY_BLUEPRINT ->
     Intake.be_followUpNeeded e merged = true ->
     In (Intake.be_field e) (Intake.ir_assumedFields r)
     /\ Intake.be_followUpNeeded e (Intake.ir_userInputs r) = false
     /\ exists q, In q (Intake.ir_clarifyingQuestions r)
                  /\ Intake.cq_field q = Intake.UserField (Intake.be_field e)
                  /\ Intake.cq_status q = Intake.Assumed)
  /\ Intake.ir_questionsToAsk r = [].

End Stated.

(** ** Notions in which further properties of the code are stated *)

Module Notions.
Local Open Scope Q_scope.

(** The dossier holds, for every field, the value of its answer record. *)
Definition dossierMirrorsAnswers (s : DocSessionState) : Prop :=
  forall fieldId, dossier s !! fieldId = ar_value <$> answers s !! fieldId.

(** A list of plan items in which no item is followed by one of a higher
    priority. *)
Definition byFallingPriority (l : list QuestionPlanItem) : Prop :=
  StronglySorted (fun a b => qp_priority b <= qp_priority a) l.

(** [closes depth s]: read from a point where [depth] braces are open, the
    text [s] closes the last of them with its last character and not
    before. *)
Fixpoint closes (depth : nat) (s : string) : bool :=
  match s with
  | EmptyString => false
  | String c r =>
      if Ascii.eqb c "{" then closes (S depth) r
      else if Ascii.eqb c "}" then
        match depth with
        | O => false
        | 1%nat => Js.isEmpty r
        | S d => closes d r
        end
      else closes depth r
  end.

(** A text that opens with a brace and ends with the brace that matches
    it. *)
Definition balancedObject (s : string) : bool :=
  match s with
  | String c r => Ascii.eqb c "{" && closes 1 r
  | EmptyString => false
  end.

(** What the scan knows at position [index]: the segments found are
    balanced pieces of [raw], and the text read since [start] leaves as
    many braces open as the stack holds. *)
Definition scanInvariant (raw : string) (index : nat) (st : Reply.SegmentScan) : Prop :=
  Forall (fun seg => balancedObject seg = true /\ Js.includes raw seg = true)
         (Reply.sc_results st)
  /\ match Reply.sc_stack st with
     | [] => Reply.sc_start st = (-1)%Z
     | _ :: _ =>
         exists s body,
           Reply.sc_start st = Z.of_nat s /\ (s < index)%nat
           /\ Js.takeChars (index - s) (Js.dropChars s raw) = String "{" body
           /\ forall t, closes 1 (body +:+ t) = closes (length (Reply.sc_stack st)) t
     end.

(** The session with the id of the message, if it has one, added to the
    ledger of processed ids. *)
Definition ledgered (s : DocSessionState) (m : BaseMessage) : DocSessionState :=
  match Reply.getDeterministicMessageId m with
  | Some i => setProcessedMessageIds (processedMessageIds s ++ [i]) s
  | None => s
  end.

(** What a step of the reply node leaves alone: the definition and the
    members copied from it, the citations and the research plan, every
    dossier key but the two detail keys; no answer is dropped and no
    question added. *)
Definition keptByReply (s s' : DocSessionState) : Prop :=
  definition s' = definition s /\ docType s' = docType s
  /\ active s' = active s /\ template s' = template s /\ title s' = title s
  /\ citations s' = citations s /\ researchPlan s' = researchPlan s
  /\ (forall key, key <> "project_details" -> key <> "user_details" ->
        dossier s' !! key = dossier s !! key)
  /\ (forall q, In q (pendingQuestions s') -> In q (pendingQuestions s))
  /\ (forall fieldId, is_Some (answers s !! fieldId) ->
        is_Some (answers s' !! fieldId)).

(** A question map is well keyed when no key occurs twice and every
    question sits under its own field. *)
Definition wellKeyed
    (m : list (Intake.QuestionField * Intake.ClarifyingQuestion)) : Prop :=
  NoDup (List.map fst m) /\ forall k v, In (k, v) m -> Intake.cq_field v = k.

(** The question map of [prepareClarifyingQuestions] after the loop over
    the blueprint, and the pending questions sorted from it. *)
Definition trackedQuestions
    (existingQuestions : option (list Intake.ClarifyingQuestion))
    (inputs : Intake.UserInputs) (assumedFields : list Intake.Field)
    (now : string) (uuid : Intake.Field -> string)
    : list (Intake.QuestionField * Intake.ClarifyingQuestion) :=
  fold_left (Intake.trackEntry inputs assumedFields now uuid)
    Intake.CLARITY_BLUEPRINT
    (fold_left (fun m q => Intake.mapSet (Intake.cq_field q) q m)
       (match existingQuestions with Some l => l | None => [] end) []).

Definition pendingClarifications
    (existingQuestions : option (list Intake.ClarifyingQuestion))
    (inputs : Intake.UserInputs) (assumedFields : list Intake.Field)
    (now : string) (uuid : Intake.Field -> string)
    : list Intake.ClarifyingQuestion :=
  Js.stableSort Intake.byBlueprintPriority
    (List.filter Intake.isPending
       (List.map snd
          (trackedQuestions existingQuestions inputs assumedFields now uuid))).

End Notions.

(** * Properties *)

(** ** Small runs *)

Section Runs.
Import Sample.

(** Scenario A: two required fields of weight 1, nothing filled, then one. *)
Example scenarioA_empty :
  let r := Scoring.computeConfidence twoFieldDef ∅ [] in
  (Scoring.completeness r == 0)%Q
  /\ List.map rs_id (Scoring.missingRequired r) = ["a"; "b"].
Proof. split; reflexivity. Qed.

Example scenarioA_one_filled :
  let r := Scoring.computeConfidence twoFieldDef dossierA [] in
  (Scoring.completeness r == 1 # 2)%Q /\ (Scoring.overall r == 45 # 100)%Q
  /\ readyToGenerate
       (DocsSession.scoreSession
          (setDossier dossierA (Session.createDocSession twoFieldDef)))
     = false.
Proof. repeat split. Qed.

Example placeholder_is_unclear :
  (Scoring.clarityOf {[ "a" := "This is TBD for now" ]} == 0)%Q.
Proof. reflexivity. Qed.

Example toFixed3_rounds :
  (Js.toFixed3 (12345 # 100000) == 123 # 1000)%Q
  /\ (Js.toFixed3 (5 # 10000) == 1 # 1000)%Q
  /\ (Js.toFixed3 (- (12345 # 100000)) == - (123 # 1000))%Q.
Proof. repeat split. Qed.

(** The sort is stable: equal priorities keep their order. *)
Example sort_is_stable :
  List.map qp_id
    (Session.sortQuestionsByPriority
       [ {| qp_id := "a"; qp_text := ""; qp_targets := []; qp_priority := 1%Q |};
         {| qp_id := "b"; qp_text := ""; qp_targets := []; qp_priority := 3%Q |};
         {| qp_id := "c"; qp_text := ""; qp_targets := []; qp_priority := 2%Q |};
         {| qp_id := "d"; qp_text := ""; qp_targets := []; qp_priority := (6 # 2)%Q |} ])
  = ["b"; "d"; "c"; "a"].
Proof. reflexivity. Qed.

Example ready_utterances :
  Reply.detectReadyIntent "We're READY!" = true
  /\ Reply.detectReadyIntent "please go ahead and draft it" = true
  /\ Reply.detectReadyIntent "Generate the document" = true
  /\ Reply.detectReadyIntent "not yet" = false.
Proof. repeat split. Qed.

(** Scenario C in the reply node: the utterance makes a fresh session
    ready although no required field is filled. *)
Example scenarioC :
  readyToGenerate
    (Reply.processDocSessionMessages noDetails
       (Session.createDocSession twoFieldDef)
       [human "m1" "generate the document"] 1)
  = true.
Proof. reflexivity. Qed.

Example fallback_message_id :
  Reply.getDeterministicMessageId
    {| msg_type := "human"; msg_id := None; msg_kwargs_id := Some " ";
       msg_additional_kwargs_id := None; msg_text := Some " hello world " |}
  = Some "content:hello world".
Proof. reflexivity. Qed.

Example assumption_cues :
  Intake.didUserRequestAssumptions "Please proceed and use your judgment" = true
  /\ Intake.didUserRequestAssumptions "proceed" = false
  /\ Intake.didUserRequestAssumptions assumeMessage = true.
Proof. repeat split. Qed.

Example working_title_from_description :
  Intake.suggestWorkingTitle
    (Intake.mergeUserInputs Intake.noInputs
       {| Intake.ui_title := None;
          Intake.ui_description :=
            Some "reduce (water) loss in the city's old network";
          Intake.ui_targetAudience := None; Intake.ui_budget := None;
          Intake.ui_timeline := None; Intake.ui_scope := None;
          Intake.ui_requirements := None; Intake.ui_objectives := None;
          Intake.ui_keyActivities := None; Intake.ui_keyChallenges := None;
          Intake.ui_successMetrics := None; Intake.ui_keyPartners := None;
          Intake.ui_outputPreferences := None |})
  = "Reduce Water Loss Initiative".
Proof. reflexivity. Qed.

End Runs.

(** ** The confidence scorer *)

Section ScoringFacts.
Import Scoring.
Local Open Scope Q_scope.

Variable dos : gmap string string.









End ScoringFacts.

Section CompletenessClaim.
Import Scoring Stated.
Local Open Scope Q_scope.





End CompletenessClaim.

Section OverallClaim.
Import Scoring Stated.
Local Open Scope Q_scope.









End OverallClaim.

(** ** The question planner *)

Section PlannerFacts.
Import Catalog Stated.
Local Open Scope Q_scope.










End PlannerFacts.

Section PlannerExamples.
Import Catalog Stated.
Local Open Scope Q_scope.



(** The plan of the sample definition: 2 + 1/2 + 1/1 and 1 + 1/2. *)
Example plannerDef_priorities :
  List.map qp_priority (materializeQuestionPlan Sample.plannerDef)
  = [2 + (1 # 2) + 1 / 1; 1 + 1 / 2].
Proof. vm_compute. reflexivity. Qed.

(** A target that no field declares weighs 1/2 in the plan. *)
Example undeclared_target_weighs_half :
  List.map qp_priority
    (materializeQuestionPlan
       (Sample.defn "d" [] [] [Sample.question "q" ["ghost"]]))
  = [(1 # 2) + 1 / 1].
Proof. vm_compute. reflexivity. Qed.

(** A definition that went through the loader carries a weight on every
    field: an optional field declared without weight weighs 1 there, so the
    planner's 1/2 applies only to definitions built otherwise. *)
Lemma loaded_fields_have_weights (doc : RawDocumentDefinition) (f : RequirementSpec) :
  In f (dd_required_fields (normalizeDefinition doc)
        ++ dd_optional_fields (normalizeDefinition doc)) ->
  exists w, rs_weight f = Some w.
Proof.
  intros H. apply in_app_or in H as [H|H]; simpl in H.
  - apply in_map_iff in H as (r & <- & _). eexists; reflexivity.
  - destruct (rd_optional_fields doc); [|destruct H].
    apply in_map_iff in H as (r & <- & _). eexists; reflexivity.
Qed.

Example loaded_optional_default_weight :
  List.map qp_priority
    (materializeQuestionPlan (normalizeDefinition Sample.rawGhostDoc))
  = [(1 # 2) + 1 / 1; 1 + 1 + 1 / 2].
Proof. vm_compute. reflexivity. Qed.

End PlannerExamples.

(** ** The catalog loader *)

Section LoaderFacts.
Import Catalog Stated.







End LoaderFacts.

(** ** The reply node: processing a message *)

Section ReplyFacts.
Import Reply Stated.

Variable extract : string -> option ProjectUserDetails.

Lemma setDossier_same (s : DocSessionState) : setDossier (dossier s) s = s.
Proof. destruct s; reflexivity. Qed.

(** Merging the JSON details changes nothing but the dossier. *)
Lemma mergeProjectUserDetails_dossier_only (s : DocSessionState)
    (details : option ProjectUserDetails) :
  mergeProjectUserDetails s details
  = setDossier (dossier (mergeProjectUserDetails s details)) s.
Proof.
  unfold mergeProjectUserDetails.
  destruct details as [[[p|] [u|]]|]; simpl;
    repeat match goal with
           | |- context [bool_decide ?P] => destruct (bool_decide P); simpl
           end;
    try reflexivity; symmetry; apply setDossier_same.
Qed.

Lemma getDeterministicMessageId_None_blank (m : BaseMessage) :
  getDeterministicMessageId m = None ->
  Js.isEmpty (Js.trim (messageText m)) = true.
Proof.
  unfold getDeterministicMessageId, messageText.
  destruct (nonBlankId (msg_id m)); [discriminate|].
  destruct (nonBlankId (msg_kwargs_id m)); [discriminate|].
  destruct (nonBlankId (msg_additional_kwargs_id m)); [discriminate|].
  destruct (msg_text m) as [c|]; [|reflexivity].
  destruct (Js.isEmpty (Js.trim c)); [reflexivity|discriminate].
Qed.

(** A message whose id is in the ledger leaves the session as it is. *)
Lemma processDocSessionMessages_seen (s : DocSessionState)
    (messages : list BaseMessage) (now : Z) (m : BaseMessage) (id : string) :
  getLatestHumanMessage messages = Some m ->
  getDeterministicMessageId m = Some id ->
  In id (processedMessageIds s) ->
  processDocSessionMessages extract s messages now = s.
Proof.
  intros Hm Hid Hin. unfold processDocSessionMessages. rewrite Hm, Hid.
  rewrite bool_decide_eq_true_2; [reflexivity|]. now apply list_elem_of_In.
Qed.

(** A message that is processed enters the ledger. *)
Lemma processDocSessionMessages_ledger (s : DocSessionState)
    (messages : list BaseMessage) (now : Z) (m : BaseMessage) (id : string) :
  getLatestHumanMessage messages = Some m ->
  getDeterministicMessageId m = Some id ->
  In id (processedMessageIds (processDocSessionMessages extract s messages now)).
Proof.
  intros Hm Hid. unfold processDocSessionMessages. rewrite Hm, Hid.
  destruct (bool_decide (id ∈ processedMessageIds s)) eqn:Eb.
  - apply bool_decide_eq_true_1 in Eb. now apply list_elem_of_In.
  - assert (Hnew : In id (processedMessageIds s ++ [id]))
      by (apply in_or_app; right; now left).
    destruct (Js.isEmpty _); [exact Hnew|].
    rewrite mergeProjectUserDetails_dossier_only.
    set (dos := dossier (mergeProjectUserDetails _ _)). clearbody dos.
    repeat match goal with
           | |- context [if ?b then _ else _] => destruct b; simpl
           | |- context [match ?o with Some _ => _ | None => _ end] =>
               destruct o; simpl
           end; exact Hnew.
Qed.

End ReplyFacts.

(** ** Processing a message twice *)

Section Idempotence.
Import Reply DocsSession Stated.

Lemma updateSessionFromMessage_seen (s : DocSessionState) (m : BaseMessage)
    (idx : Z) (r : option Extraction) (now : nat -> Z) :
  In (getMessageId m idx) (processedMessageIds s) ->
  updateSessionFromMessage s m idx r now = s.
Proof.
  intros Hin. unfold updateSessionFromMessage.
  rewrite bool_decide_eq_true_2; [reflexivity|]. now apply list_elem_of_In.
Qed.

Lemma updateSessionFromMessage_ledger (s : DocSessionState) (m : BaseMessage)
    (idx : Z) (r : option Extraction) (now : nat -> Z) :
  In (getMessageId m idx)
     (processedMessageIds (updateSessionFromMessage s m idx r now)).
Proof.
  unfold updateSessionFromMessage.
  destruct (bool_decide (getMessageId m idx ∈ processedMessageIds s)) eqn:Eb.
  - apply bool_decide_eq_true_1 in Eb. now apply list_elem_of_In.
  - destruct (match r with Some _ => _ | None => _ end) as [ua ud]. simpl.
    apply in_or_app; right; now left.
Qed.

(** C3.  A message whose id (explicit, or derived from its content) is
    already in [processedMessageIds] leaves the whole session unchanged, in
    [updateSessionFromMessage] and in [processDocSessionMessages]; hence
    processing the same message a second time changes nothing.  The two
    nodes around them then leave [answers], [dossier] and
    [pendingQuestions] as they are. *)
Theorem reprocessing_changes_nothing :
  (forall s m idx r now,
      In (getMessageId m idx) (processedMessageIds s) ->
      updateSessionFromMessage s m idx r now = s)
  /\ (forall extract s messages now m id,
         getLatestHumanMessage messages = Some m ->
         getDeterministicMessageId m = Some id ->
         In id (processedMessageIds s) ->
         processDocSessionMessages extract s messages now = s)
  /\ (forall s m idx r now r' now',
         updateSessionFromMessage (updateSessionFromMessage s m idx r now)
                                  m idx r' now'
         = updateSessionFromMessage s m idx r now)
  /\ (forall extract s messages now now',
         processDocSessionMessages extract
           (processDocSessionMessages extract s messages now) messages now'
         = processDocSessionMessages extract s messages now)
  /\ (forall extract s messages now m id,
         getLatestHumanMessage messages = Some m ->
         getDeterministicMessageId m = Some id ->
         In id (processedMessageIds s) ->
         let s' := replyToGeneralInput extract s messages now in
         answers s' = answers s /\ dossier s' = dossier s
         /\ pendingQuestions s' = pendingQuestions s)
  /\ (forall catalog s messages r now m,
         getLatestHumanMessage messages = Some m ->
         In (getMessageId m (latestHumanIndex messages)) (processedMessageIds s) ->
         match maybeHandleDocSession catalog (Some s) messages r now with
         | Continue s' _ | Artifact s' =>
             answers s' = answers s /\ dossier s' = dossier s
             /\ pendingQuestions s' = pendingQuestions s
         | _ => True
         end).
Proof.
  split; [exact updateSessionFromMessage_seen|].
  split; [exact processDocSessionMessages_seen|].
  split; [|split; [|split]]; cycle 2.
  - intros extract s messages now m id Hm Hid Hin s'. subst s'.
    unfold replyToGeneralInput. destruct (active s); [|tauto].
    rewrite (processDocSessionMessages_seen extract s messages now m id Hm Hid Hin).
    destruct (bool_decide _); simpl; tauto.
  - intros catalog s messages r now m Hm Hin.
    unfold maybeHandleDocSession. rewrite Hm.
    rewrite (updateSessionFromMessage_seen s m _ r now Hin).
    destruct (readyToGenerate (scoreSession s)); [simpl; tauto|].
    destruct (pendingQuestions (scoreSession s)) as [|q qs] eqn:Ep;
      [simpl; tauto|].
    destruct (bool_decide _); simpl; tauto.
  - intros s m idx r now r' now'. apply updateSessionFromMessage_seen.
    apply updateSessionFromMessage_ledger.
  - intros extract s messages now now'.
    destruct (getLatestHumanMessage messages) as [m|] eqn:Hm.
    + destruct (getDeterministicMessageId m) as [id|] eqn:Hid.
      * eapply processDocSessionMessages_seen; [exact Hm|exact Hid|].
        now apply processDocSessionMessages_ledger with (m := m).
      * assert (E : forall t n, processDocSessionMessages extract t messages n = t).
        { intros t n. unfold processDocSessionMessages. rewrite Hm, Hid.
          apply getDeterministicMessageId_None_blank in Hid.
          now rewrite Hid. }
        now rewrite !E.
    + unfold processDocSessionMessages. now rewrite Hm.
Qed.

(** The message [m1] is in the ledger of [askedQ1]: sending it again, at
    another time, returns the same session. *)
Lemma reprocessing_changes_nothing_witness :
  In "m1" (processedMessageIds Sample.askedQ1)
  /\ processDocSessionMessages Sample.noDetails Sample.askedQ1
       [Sample.human "m1" "hi"] 7
     = Sample.askedQ1.
Proof.
  assert (Hin : In "m1" (processedMessageIds Sample.askedQ1)).
  { vm_compute. now left. }
  split; [exact Hin|].
  exact (proj1 (proj2 reprocessing_changes_nothing)
           Sample.noDetails Sample.askedQ1 [Sample.human "m1" "hi"] 7%Z
           (Sample.human "m1" "hi") "m1" eq_refl eq_refl Hin).
Defined.

End Idempotence.

(** ** Readiness *)

Section Readiness.
Import Reply DocsSession Stated.
Local Open Scope Q_scope.

Lemma processDocSessionMessages_unseen
    (extract : string -> option ProjectUserDetails) (s : DocSessionState)
    (messages : list BaseMessage) (now : Z) (m : BaseMessage) :
  getLatestHumanMessage messages = Some m ->
  (forall id, getDeterministicMessageId m = Some id ->
              ~ In id (processedMessageIds s)) ->
  Js.isEmpty (Js.trim (messageText m)) = false ->
  exists dos ids,
    processDocSessionMessages extract s messages now
    = afterLedger (setDossier dos (setProcessedMessageIds ids s))
                  (Js.trim (messageText m)) now.
Proof.
  intros Hm Hunseen Htext. unfold processDocSessionMessages. rewrite Hm.
  destruct (getDeterministicMessageId m) as [id|] eqn:Hid.
  - rewrite bool_decide_eq_false_2
      by (intros Hin; apply (Hunseen id eq_refl); now apply list_elem_of_In).
    rewrite Htext. rewrite mergeProjectUserDetails_dossier_only.
    eexists _, _. unfold afterLedger, askedQuestion.
    destruct (Js.truthy _); reflexivity.
  - rewrite Htext. rewrite mergeProjectUserDetails_dossier_only.
    exists (dossier (mergeProjectUserDetails s
                       (extract (Js.trim (messageText m))))),
           (processedMessageIds s).
    replace (setProcessedMessageIds (processedMessageIds s) s) with s
      by (destruct s; reflexivity).
    unfold afterLedger, askedQuestion.
    destruct (Js.truthy _); reflexivity.
Qed.

Lemma askedQuestion_truthy (s : DocSessionState) (tq : QuestionPlanItem) :
  askedQuestion s = Some tq -> Js.truthy (lastAskedQuestionId s) = true.
Proof.
  unfold askedQuestion. destruct (Js.truthy _); [reflexivity|discriminate].
Qed.

Lemma afterLedger_answering (s1 : DocSessionState) (text : string) (now : Z)
    (tq : QuestionPlanItem) :
  askedQuestion s1 = Some tq -> detectReadyIntent text = false ->
  afterLedger s1 text now = answerAskedQuestion s1 tq text now.
Proof.
  intros Hq Hint. unfold afterLedger.
  rewrite (askedQuestion_truthy _ _ Hq), Hq, Hint. simpl.
  now rewrite andb_false_r.
Qed.

Lemma afterLedger_otherwise (s1 : DocSessionState) (text : string) (now : Z) :
  askedQuestion s1 = None \/ detectReadyIntent text = true ->
  readyToGenerate (afterLedger s1 text now)
  = readyToGenerate s1 || detectReadyIntent text.
Proof.
  intros H. unfold afterLedger.
  assert (E : exists s2,
             (if Js.truthy (lastAskedQuestionId s1) then
                match askedQuestion s1 with
                | Some tq =>
                    if negb (detectReadyIntent text)
                    then answerAskedQuestion s1 tq text now
                    else setLastAskedQuestionId None s1
                | None => setLastAskedQuestionId None s1
                end
              else s1) = s2
             /\ readyToGenerate s2 = readyToGenerate s1).
  { destruct (Js.truthy _); [|eauto].
    destruct H as [->| ->]; [eauto|].
    destruct (askedQuestion s1); simpl; eauto. }
  destruct E as (s2 & -> & E2).
  destruct (readyToGenerate s2) eqn:Er, (detectReadyIntent text); simpl;
    rewrite <- E2; try reflexivity; exact Er.
Qed.

Lemma askedQuestion_setDossier (dos : gmap string string) (ids : list string)
    (s : DocSessionState) :
  askedQuestion (setDossier dos (setProcessedMessageIds ids s)) = askedQuestion s.
Proof. reflexivity. Qed.

(** What [maybeHandleDocSession] hands back: a session that stays is not
    ready and fails the scorer's test; an artifact is rendered only from a
    session that passes it. *)
Lemma maybeHandleDocSession_outcome (catalog : gmap string DocumentDefinition)
    (docsState : option DocSessionState) (messages : list BaseMessage)
    (response : option Extraction) (now : nat -> Z) :
  match maybeHandleDocSession catalog docsState messages response now with
  | Continue s' _ =>
      let r := Scoring.computeConfidence (definition s') (dossier s') (citations s') in
      readyToGenerate s' = false
      /\ ~ (3 # 4 <= Scoring.overall r /\ Scoring.missingRequired r = [])
  | Artifact s' =>
      let r := Scoring.computeConfidence (definition s') (dossier s') (citations s') in
      readyToGenerate s' = true
      /\ 3 # 4 <= Scoring.overall r /\ Scoring.missingRequired r = []
  | _ => True
  end.
Proof.
  unfold maybeHandleDocSession.
  set (created := match docsState with Some _ => _ | None => _ end).
  destruct created as [[session0|]|]; [|exact I|exact I].
  set (session1 := match getLatestHumanMessage messages with
                   | Some _ => _ | None => _ end).
  clearbody session1.
  assert (Hready : readyToGenerate (scoreSession session1) = true
                   <-> 3 # 4 <= Scoring.overall
                                  (Scoring.computeConfidence (definition session1)
                                     (dossier session1) (citations session1))
                       /\ Scoring.missingRequired
                            (Scoring.computeConfidence (definition session1)
                               (dossier session1) (citations session1)) = []).
  { unfold scoreSession. cbn [readyToGenerate].
    rewrite andb_true_iff, Qle_bool_iff, bool_decide_eq_true.
    now rewrite length_zero_iff_nil. }
  destruct (readyToGenerate (scoreSession session1)) eqn:Er.
  - split; [exact Er|]. now apply Hready.
  - assert (Hnot : ~ (3 # 4 <= Scoring.overall
                                 (Scoring.computeConfidence (definition session1)
                                    (dossier session1) (citations session1))
                      /\ Scoring.missingRequired
                           (Scoring.computeConfidence (definition session1)
                              (dossier session1) (citations session1)) = [])).
    { intros H. apply Hready in H. discriminate. }
    destruct (pendingQuestions (scoreSession session1)) as [|q qs];
      [split; [exact Er|exact Hnot]|].
    destruct (bool_decide _); (split; [exact Er|exact Hnot]).
Qed.

(** C1, counterexample.  In the reply node an answer that covers three of
    four required fields makes the session ready although a required field
    is missing, the message is no readiness utterance and a question is
    still pending, whether the confidence is the scorer's overall result
    (0.2 here) or the coverage percentage (75 here); in
    [maybeHandleDocSession] the utterance [we're ready] leaves the session
    not ready. *)
Lemma readiness_rule_fails :
  ~ reply_follows_rule Sample.noDetails Sample.askedQ1
      [Sample.human "m1" "hi"; Sample.human "m2" "It is a solar project"] 2
  /\ ~ reply_follows_rule_by_coverage Sample.noDetails Sample.askedQ1
        [Sample.human "m1" "hi"; Sample.human "m2" "It is a solar project"] 2
  /\ ~ handler_follows_rule ∅ (Session.createDocSession Sample.twoFieldDef)
         [Sample.human "m1" "we're ready"] (Some Sample.nothingExtracted)
         Sample.clock.
Proof.
  split; [|split].
  - intros H.
    specialize (H (Sample.human "m2" "It is a solar project") eq_refl).
    vm_compute in H. discriminate H.
  - intros H.
    specialize (H (Sample.human "m2" "It is a solar project") eq_refl).
    vm_compute in H. discriminate H.
  - intros H.
    assert (E : exists s' asked,
               maybeHandleDocSession ∅
                 (Some (Session.createDocSession Sample.twoFieldDef))
                 [Sample.human "m1" "we're ready"]
                 (Some Sample.nothingExtracted) Sample.clock
               = Continue s' asked).
    { vm_compute. eexists _, _. reflexivity. }
    destruct E as (s' & asked & E).
    specialize (H (Sample.human "m1" "we're ready") s' asked eq_refl E).
    pose proof (maybeHandleDocSession_outcome ∅
                  (Some (Session.createDocSession Sample.twoFieldDef))
                  [Sample.human "m1" "we're ready"]
                  (Some Sample.nothingExtracted) Sample.clock) as Ho.
    rewrite E in Ho. destruct Ho as [Hr _].
    rewrite Hr in H. unfold readinessRule in H.
    change (messageText (Sample.human "m1" "we're ready")) with "we're ready" in H.
    assert (Hi : detectReadyIntent "we're ready" = true) by (vm_compute; reflexivity).
    rewrite Hi, orb_true_r in H. discriminate H.
Qed.

(** C1, amended.  For an unseen message with non-blank text the reply node
    sets readiness as follows.  When the message answers the pending
    question asked last and is no readiness utterance, that question leaves
    the pending list and the session is ready exactly when the coverage
    confidence (the rounded percentage of required fields with a non-blank
    answer) is at least 75 or no question is pending any more.  In every
    other case the session is ready exactly when it was ready before or the
    message is a readiness utterance.  [maybeHandleDocSession] keeps a
    session exactly when the scorer's overall result is below 0.75 or a
    required field is missing, and that session is not ready. *)
Theorem readiness_as_computed :
  (forall extract s messages now m,
      getLatestHumanMessage messages = Some m ->
      (forall id, getDeterministicMessageId m = Some id ->
                  ~ In id (processedMessageIds s)) ->
      Js.isEmpty (Js.trim (messageText m)) = false ->
      let text := Js.trim (messageText m) in
      let s' := processDocSessionMessages extract s messages now in
      (forall tq, askedQuestion s = Some tq -> detectReadyIntent text = false ->
         pendingQuestions s'
         = List.filter (fun q => negb (String.eqb (qp_id q) (qp_id tq)))
                       (pendingQuestions s)
         /\ (readyToGenerate s' = true
             <-> (75 <= Session.calculateCoverageConfidence
                          (definition s') (answers s'))%Z
                 \/ pendingQuestions s' = []))
      /\ (askedQuestion s = None \/ detectReadyIntent text = true ->
          (readyToGenerate s' = true
           <-> readyToGenerate s = true \/ detectReadyIntent text = true)))
  /\ (forall catalog docsState messages response now,
         match maybeHandleDocSession catalog docsState messages response now with
         | Continue s' _ =>
             let r := Scoring.computeConfidence (definition s') (dossier s')
                        (citations s') in
             readyToGenerate s' = false
             /\ ~ (3 # 4 <= Scoring.overall r /\ Scoring.missingRequired r = [])
         | Artifact s' =>
             let r := Scoring.computeConfidence (definition s') (dossier s')
                        (citations s') in
             readyToGenerate s' = true
             /\ 3 # 4 <= Scoring.overall r /\ Scoring.missingRequired r = []
         | _ => True
         end).
Proof.
  split; [|exact maybeHandleDocSession_outcome].
  intros extract s messages now m Hm Hunseen Htext text s'.
  destruct (processDocSessionMessages_unseen extract s messages now m
              Hm Hunseen Htext) as (dos & ids & E).
  subst s'. rewrite E. fold text. split.
  - intros tq Hq Hint.
    rewrite (afterLedger_answering _ text now tq)
      by (rewrite ?askedQuestion_setDossier; assumption).
    cbn [answerAskedQuestion pendingQuestions readyToGenerate definition
         answers setDossier setProcessedMessageIds].
    split; [reflexivity|].
    rewrite orb_true_iff, Z.leb_le, bool_decide_eq_true.
    now rewrite length_zero_iff_nil.
  - intros Hcase.
    rewrite afterLedger_otherwise
      by (rewrite askedQuestion_setDossier; exact Hcase).
    cbn [readyToGenerate setDossier setProcessedMessageIds].
    now rewrite orb_true_iff.
Qed.

(** The answer to [q1] in the sample session: coverage 75, hence ready,
    with [q2] still pending. *)
Lemma readiness_as_computed_witness :
  let s' := processDocSessionMessages Sample.noDetails Sample.askedQ1
              [Sample.human "m1" "hi"; Sample.human "m2" "It is a solar project"] 2 in
  List.map qp_id (pendingQuestions s') = ["q2"]
  /\ readyToGenerate s' = true.
Proof.
  destruct (proj1 readiness_as_computed Sample.noDetails Sample.askedQ1
              [Sample.human "m1" "hi"; Sample.human "m2" "It is a solar project"]
              2%Z (Sample.human "m2" "It is a solar project") eq_refl)
    as [Hans _].
  - intros id [= <-]. vm_compute. intros [H|[]]. discriminate H.
  - reflexivity.
  - assert (Hq : askedQuestion Sample.askedQ1 = Some Sample.q1Item)
      by (vm_compute; reflexivity).
    destruct (Hans Sample.q1Item Hq eq_refl) as [Hp Hr].
    split.
    + rewrite Hp. vm_compute. reflexivity.
    + apply Hr. left. vm_compute. discriminate.
Defined.

End Readiness.

(** ** Readiness over successive turns *)

Section Monotonicity.
Import Reply DocsSession Stated.

Variable extract : string -> option ProjectUserDetails.

(** The three shapes of the result of [processDocSessionMessages]. *)
Lemma processDocSessionMessages_cases (s : DocSessionState)
    (messages : list BaseMessage) (now : Z) :
  processDocSessionMessages extract s messages now = s
  \/ (exists ids,
        processDocSessionMessages extract s messages now
        = setProcessedMessageIds ids s)
  \/ (exists dos ids text,
        processDocSessionMessages extract s messages now
        = afterLedger (setDossier dos (setProcessedMessageIds ids s)) text now).
Proof.
  destruct (getLatestHumanMessage messages) as [m|] eqn:Hm;
    [|left; unfold processDocSessionMessages; now rewrite Hm].
  destruct (getDeterministicMessageId m) as [id|] eqn:Hid.
  - destruct (decide (id ∈ processedMessageIds s)) as [Hin|Hout].
    + left. apply list_elem_of_In in Hin.
      eapply processDocSessionMessages_seen; eassumption.
    + rewrite list_elem_of_In in Hout. destruct (Js.isEmpty (Js.trim (messageText m))) eqn:Ht.
      * right; left. exists (processedMessageIds s ++ [id]).
        unfold processDocSessionMessages. rewrite Hm, Hid.
        rewrite bool_decide_eq_false_2
          by (intros H; apply Hout; now apply list_elem_of_In).
        now rewrite Ht.
      * right; right.
        destruct (processDocSessionMessages_unseen extract s messages now m Hm)
          as (dos & ids & E); [|exact Ht|eauto].
        intros id' Hid'. rewrite Hid in Hid'. now injection Hid' as <-.
  - left. unfold processDocSessionMessages. rewrite Hm, Hid.
    apply getDeterministicMessageId_None_blank in Hid.
    now rewrite Hid.
Qed.

Lemma afterLedger_keeps_ready (s1 : DocSessionState) (text : string) (now : Z) :
  readyToGenerate s1 = true -> Js.truthy (lastAskedQuestionId s1) = false ->
  readyToGenerate (afterLedger s1 text now) = true.
Proof.
  intros Hr Hl. unfold afterLedger. rewrite Hl, Hr. exact Hr.
Qed.

Lemma processDocSessionMessages_keeps_ready (s : DocSessionState)
    (messages : list BaseMessage) (now : Z) :
  readyToGenerate s = true -> Js.truthy (lastAskedQuestionId s) = false ->
  readyToGenerate (processDocSessionMessages extract s messages now) = true.
Proof.
  intros Hr Hl.
  destruct (processDocSessionMessages_cases s messages now)
    as [->|[(ids & ->)|(dos & ids & text & ->)]]; try exact Hr.
  now apply afterLedger_keeps_ready.
Qed.

(** After a reply turn on an active session, a ready session has no
    question recorded as asked. *)
Lemma replyToGeneralInput_ready_unasked (s : DocSessionState)
    (messages : list BaseMessage) (now : Z) :
  active s = true ->
  readyToGenerate (replyToGeneralInput extract s messages now) = true ->
  lastAskedQuestionId (replyToGeneralInput extract s messages now) = None.
Proof.
  intros Ha. unfold replyToGeneralInput. rewrite Ha.
  set (u := processDocSessionMessages extract s messages now).
  destruct (readyToGenerate u) eqn:Er.
  - destruct (bool_decide _) eqn:Eb; [|reflexivity].
    intros _. apply bool_decide_eq_true_1 in Eb. now rewrite <- Eb.
  - destruct (bool_decide _); simpl; intros H; congruence.
Qed.

Lemma replyToGeneralInput_ready_eq (s : DocSessionState)
    (messages : list BaseMessage) (now : Z) :
  active s = true ->
  readyToGenerate (replyToGeneralInput extract s messages now)
  = readyToGenerate (processDocSessionMessages extract s messages now).
Proof.
  intros Ha. unfold replyToGeneralInput. rewrite Ha.
  destruct (bool_decide _); reflexivity.
Qed.

(** The invariant of the reply path, and readiness, are kept by a turn. *)
Lemma replyToGeneralInput_step (s : DocSessionState)
    (messages : list BaseMessage) (now : Z) :
  (readyToGenerate s = true -> lastAskedQuestionId s = None) ->
  let s' := replyToGeneralInput extract s messages now in
  (readyToGenerate s' = true -> lastAskedQuestionId s' = None)
  /\ (readyToGenerate s = true -> readyToGenerate s' = true).
Proof.
  intros Hinv s'. subst s'. destruct (active s) eqn:Ha.
  - split; [now apply replyToGeneralInput_ready_unasked|].
    intros Hr. rewrite replyToGeneralInput_ready_eq by exact Ha.
    apply processDocSessionMessages_keeps_ready; [exact Hr|].
    now rewrite (Hinv Hr).
  - unfold replyToGeneralInput. rewrite Ha. split; [exact Hinv|tauto].
Qed.

Lemma replyTurns_keeps_ready (turns : list (list BaseMessage * Z))
    (s : DocSessionState) :
  (readyToGenerate s = true -> lastAskedQuestionId s = None) ->
  (readyToGenerate (replyTurns extract s turns) = true ->
   lastAskedQuestionId (replyTurns extract s turns) = None)
  /\ (readyToGenerate s = true ->
      readyToGenerate (replyTurns extract s turns) = true).
Proof.
  revert s; induction turns as [|[messages now] turns IH]; intros s Hinv; simpl.
  - tauto.
  - destruct (replyToGeneralInput_step s messages now Hinv) as [Hinv' Hr'].
    destruct (IH _ Hinv') as [IH1 IH2]. split; [exact IH1|]. auto.
Qed.

Lemma replyTurns_app (turns1 turns2 : list (list BaseMessage * Z))
    (s : DocSessionState) :
  replyTurns extract s (turns1 ++ turns2)
  = replyTurns extract (replyTurns extract s turns1) turns2.
Proof.
  revert s; induction turns1 as [|[messages now] turns1 IH]; intros s; simpl;
    [reflexivity|apply IH].
Qed.

End Monotonicity.

Section MonotonicityClaim.
Import Reply DocsSession Stated.

(** C2, counterexample.  [processDocSessionMessages] takes readiness back
    from a ready session that still records an asked question, and
    [maybeHandleDocSession], which scores the session anew on each call,
    takes it back from the session that the utterance [we're ready] had
    made ready. *)
Lemma readiness_kept_fails :
  ~ reply_keeps_ready Sample.noDetails Sample.readyButAsked
      [Sample.human "m9" "some answer"] 5
  /\ ~ handler_keeps_ready ∅ Sample.saidReady
         [Sample.human "m1" "we're ready"; Sample.human "m2" "thanks"]
         (Some Sample.nothingExtracted) Sample.clock.
Proof.
  split.
  - intros H. specialize (H eq_refl). vm_compute in H. discriminate H.
  - intros H.
    pose proof (maybeHandleDocSession_outcome ∅ (Some Sample.saidReady)
                  [Sample.human "m1" "we're ready"; Sample.human "m2" "thanks"]
                  (Some Sample.nothingExtracted) Sample.clock) as Ho.
    assert (E : exists s' asked,
               maybeHandleDocSession ∅ (Some Sample.saidReady)
                 [Sample.human "m1" "we're ready"; Sample.human "m2" "thanks"]
                 (Some Sample.nothingExtracted) Sample.clock
               = Continue s' asked).
    { vm_compute. eexists _, _. reflexivity. }
    destruct E as (s' & asked & E). rewrite E in Ho. destruct Ho as [Hr _].
    assert (Hready : readyToGenerate Sample.saidReady = true)
      by (vm_compute; reflexivity).
    specialize (H Hready s' asked E). congruence.
Qed.

(** C2, amended.  [processDocSessionMessages] keeps a ready session ready
    whenever the session records no asked question; the reply node clears
    that record whenever the session is ready, so that along any sequence
    of reply turns from a newly created session readiness, once reached, is
    never taken back. *)
Theorem readiness_monotone_along_reply_turns :
  (forall extract s messages now,
      readyToGenerate s = true ->
      Js.truthy (lastAskedQuestionId s) = false ->
      readyToGenerate (processDocSessionMessages extract s messages now) = true)
  /\ (forall extract s messages now,
         active s = true ->
         readyToGenerate (replyToGeneralInput extract s messages now) = true ->
         lastAskedQuestionId (replyToGeneralInput extract s messages now) = None)
  /\ (forall extract d turns1 turns2,
         readyToGenerate
           (replyTurns extract (Session.createDocSession d) turns1) = true ->
         readyToGenerate
           (replyTurns extract (Session.createDocSession d) (turns1 ++ turns2))
         = true).
Proof.
  split; [exact processDocSessionMessages_keeps_ready|].
  split; [exact replyToGeneralInput_ready_unasked|].
  intros extract d turns1 turns2 Hr. rewrite replyTurns_app.
  assert (Hinit : readyToGenerate (Session.createDocSession d) = true ->
                  lastAskedQuestionId (Session.createDocSession d) = None)
    by reflexivity.
  destruct (replyTurns_keeps_ready extract turns1 _ Hinit) as [Hinv _].
  destruct (replyTurns_keeps_ready extract turns2 _ Hinv) as [_ Hkeep].
  exact (Hkeep Hr).
Qed.

(** After [we're ready] the session is ready, and it is still ready after
    two further reply turns. *)
Lemma readiness_monotone_along_reply_turns_witness :
  readyToGenerate
    (replyTurns Sample.noDetails (Session.createDocSession Sample.twoFieldDef)
       [([Sample.human "m1" "we're ready"], 1%Z)]) = true
  /\ readyToGenerate
       (replyTurns Sample.noDetails (Session.createDocSession Sample.twoFieldDef)
          ([([Sample.human "m1" "we're ready"], 1%Z)]
           ++ [([Sample.human "m1" "we're ready"; Sample.human "m2" "thanks"], 2%Z);
               ([Sample.human "m1" "we're ready"; Sample.human "m2" "thanks";
                 Sample.human "m3" "the budget is open"], 3%Z)])) = true.
Proof.
  assert (H1 : readyToGenerate
                 (replyTurns Sample.noDetails
                    (Session.createDocSession Sample.twoFieldDef)
                    [([Sample.human "m1" "we're ready"], 1%Z)]) = true)
    by (vm_compute; reflexivity).
  split; [exact H1|].
  exact (proj2 (proj2 readiness_monotone_along_reply_turns)
           Sample.noDetails Sample.twoFieldDef _ _ H1).
Defined.

End MonotonicityClaim.

(** ** Merging list-valued intake fields *)

Section MergeLists.
Import Intake.






Lemma In_trimmedNonEmpty (l : list string) (x : string) :
  In x (trimmedNonEmpty l)
  <-> exists y, In y l /\ Js.trim y = x /\ Js.isEmpty x = false.
Proof.
  unfold trimmedNonEmpty. rewrite filter_In, in_map_iff, negb_true_iff.
  split.
  - intros [(y & Hy & Hin) He]. eauto.
  - intros (y & Hin & Hy & He). eauto.
Qed.

Lemma trimmedNonEmpty_app (l1 l2 : list string) :
  trimmedNonEmpty (l1 ++ l2) = trimmedNonEmpty l1 ++ trimmedNonEmpty l2.
Proof.
  unfold trimmedNonEmpty. now rewrite map_app, List.filter_app.
Qed.

Lemma existsb_eqb_In (x : string) (seen : list string) :
  existsb (String.eqb x) seen = true <-> In x seen.
Proof.
  rewrite existsb_exists. split.
  - intros (y & Hy & E). apply String.eqb_eq in E. now subst.
  - intros H. exists x. split; [exact H|apply String.eqb_refl].
Qed.

Lemma In_uniqueFrom (l seen : list string) (x : string) :
  In x (uniqueFrom seen l) <-> In x l /\ ~ In x seen.
Proof.
  revert seen; induction l as [|y r IH]; intros seen; simpl; [tauto|].
  destruct (existsb (String.eqb y) seen) eqn:E.
  - apply existsb_eqb_In in E. rewrite IH. split.
    + intros [H1 H2]. tauto.
    + intros [[->|H1] H2]; [contradiction|tauto].
  - assert (Hy : ~ In y seen).
    { intros H. apply existsb_eqb_In in H. congruence. }
    simpl. rewrite IH. simpl. split.
    + intros [->|[H1 H2]]; [tauto|]. split; [tauto|]. intros H; apply H2; now right.
    + intros [[->|H1] H2]; [now left|].
      destruct (String.eqb y x) eqn:Exy.
      * apply String.eqb_eq in Exy. now left.
      * right. split; [exact H1|]. intros [->|H]; [|contradiction].
        now rewrite String.eqb_refl in Exy.
Qed.

Lemma NoDup_uniqueFrom (l seen : list string) : NoDup (uniqueFrom seen l).
Proof.
  revert seen; induction l as [|y r IH]; intros seen; simpl; [constructor|].
  destruct (existsb (String.eqb y) seen); [apply IH|].
  apply NoDup_cons. split; [|apply IH].
  rewrite list_elem_of_In, In_uniqueFrom. intros [_ H]. apply H. now left.
Qed.

Lemma In_unique (l : list string) (x : string) : In x (unique l) <-> In x l.
Proof. unfold unique. rewrite In_uniqueFrom. simpl. tauto. Qed.

Lemma unique_nil (l : list string) : unique l = [] <-> l = [].
Proof.
  split; [|intros ->; reflexivity].
  destruct l as [|x r]; [reflexivity|]. unfold unique. simpl. discriminate.
Qed.

(** The entries of a merge result. *)
Lemma mergeStringLists_spec (existing incoming : option (list string)) :
  let all := trimmedNonEmpty (orEmpty existing ++ orEmpty incoming) in
  (all = [] /\ mergeStringLists existing incoming = existing)
  \/ (all <> [] /\ exists u,
        mergeStringLists existing incoming = Some u
        /\ NoDup u /\ forall x, In x u <-> In x all).
Proof.
  intros all. unfold mergeStringLists. fold all.
  destruct (unique all) as [|x u] eqn:E.
  - left. split; [now apply unique_nil|reflexivity].
  - right. split.
    + intros H. apply unique_nil in H. congruence.
    + exists (x :: u). split; [reflexivity|]. rewrite <- E.
      split; [apply NoDup_uniqueFrom|apply In_unique].
Qed.






(** With an existing [[x]]: one order gives [x, a, b, c], the other
    [x, b, c, a]. *)
Example mergeStringLists_orders :
  mergeStringLists (mergeStringLists (Some ["x"]) (Some ["a"; "b"])) (Some ["b"; "c"])
  = Some ["x"; "a"; "b"; "c"]
  /\ mergeStringLists (mergeStringLists (Some ["x"]) (Some ["b"; "c"])) (Some ["a"; "b"])
     = Some ["x"; "b"; "c"; "a"].
Proof. split; reflexivity. Qed.

End MergeLists.

(** ** The frame of a merge *)

Section MergeFrame.
Import DocsSession Intake Stated.

Lemma applyAnswer_other (s : DocSessionState) (now : nat -> Z)
    (acc : gmap string AnswerRecord * gmap string string)
    (ia : nat * ExtractedAnswer) (fid : string) :
  provides fid (snd ia) = false ->
  fst (applyAnswer s now acc ia) !! fid = fst acc !! fid
  /\ snd (applyAnswer s now acc ia) !! fid = snd acc !! fid.
Proof.
  destruct ia as [i a]. unfold provides, applyAnswer. simpl.
  destruct (Js.isEmpty (Js.trim (ea_value a))) eqn:Ev; [tauto|].
  rewrite andb_true_r. intros Hne. apply String.eqb_neq in Hne.
  simpl. now rewrite !lookup_insert_ne.
Qed.

Lemma applyAnswer_same (s : DocSessionState) (now : nat -> Z)
    (acc : gmap string AnswerRecord * gmap string string)
    (ia : nat * ExtractedAnswer) (fid : string) :
  provides fid (snd ia) = true ->
  exists rec,
    fst (applyAnswer s now acc ia) !! fid = Some rec
    /\ ar_fieldId rec = fid
    /\ ar_timestamps rec = history s fid ++ [now (fst ia)]
    /\ snd (applyAnswer s now acc ia) !! fid = Some (ar_value rec).
Proof.
  destruct ia as [i a]. unfold provides, applyAnswer. simpl.
  intros H. apply andb_true_iff in H as [Hid Hv].
  apply String.eqb_eq in Hid. apply negb_true_iff in Hv. rewrite Hv. subst fid.
  simpl. rewrite !lookup_insert_eq. eexists. split; [reflexivity|].
  simpl. unfold history. auto.
Qed.

Lemma foldAnswers_frame (s : DocSessionState) (now : nat -> Z)
    (l : list (nat * ExtractedAnswer))
    (acc : gmap string AnswerRecord * gmap string string) (fid : string) :
  existsb (fun ia => provides fid (snd ia)) l = false ->
  fst (fold_left (applyAnswer s now) l acc) !! fid = fst acc !! fid
  /\ snd (fold_left (applyAnswer s now) l acc) !! fid = snd acc !! fid.
Proof.
  revert acc; induction l as [|ia l IH]; intros acc H; simpl in *; [tauto|].
  apply orb_false_iff in H as [H1 H2].
  destruct (IH (applyAnswer s now acc ia) H2) as [-> ->].
  now apply applyAnswer_other.
Qed.

Lemma foldAnswers_updated (s : DocSessionState) (now : nat -> Z)
    (l : list (nat * ExtractedAnswer))
    (acc : gmap string AnswerRecord * gmap string string) (fid : string) :
  existsb (fun ia => provides fid (snd ia)) l = true ->
  exists rec t,
    fst (fold_left (applyAnswer s now) l acc) !! fid = Some rec
    /\ ar_fieldId rec = fid
    /\ ar_timestamps rec = history s fid ++ [t]
    /\ snd (fold_left (applyAnswer s now) l acc) !! fid = Some (ar_value rec).
Proof.
  revert acc; induction l as [|ia l IH]; intros acc H; simpl in *; [discriminate|].
  destruct (existsb (fun ia => provides fid (snd ia)) l) eqn:El.
  - now apply IH.
  - rewrite orb_false_r in H.
    destruct (foldAnswers_frame s now l (applyAnswer s now acc ia) fid El)
      as [-> ->].
    destruct (applyAnswer_same s now acc ia fid H) as (rec & H1 & H2 & H3 & H4).
    eauto 8.
Qed.

Lemma existsb_indexed (fid : string) (l : list ExtractedAnswer) :
  existsb (fun ia => provides fid (snd ia)) (indexed l)
  = existsb (provides fid) l.
Proof.
  unfold indexed.
  assert (G : forall (f : nat -> nat) (l : list ExtractedAnswer),
             existsb (fun ia : nat * ExtractedAnswer => provides fid (snd ia))
                     (imap (fun i a => (f i, a)) l)
             = existsb (provides fid) l).
  { intros f l0; revert f; induction l0 as [|a l0 IH]; intros f; simpl;
      [reflexivity|].
    f_equal. exact (IH (fun i => f (S i))). }
  exact (G (fun i => i) l).
Qed.

Lemma overwriteIfTruthy_none (existing update : option string) :
  Js.truthy update = false -> overwriteIfTruthy existing update = existing.
Proof. unfold overwriteIfTruthy. now intros ->. Qed.

(** A list merge keeps every existing entry that is not blank, trimmed. *)
Lemma mergeIfPresent_keeps (existing update : option (list string)) (y : string) :
  In y (orEmpty existing) -> Js.isEmpty (Js.trim y) = false ->
  mergeIfPresent existing update = existing
  \/ In (Js.trim y) (orEmpty (mergeIfPresent existing update)).
Proof.
  intros Hin Hy. unfold mergeIfPresent. destruct update as [upd|]; [|now left].
  destruct (mergeStringLists_spec existing (Some upd))
    as [[_ ->]|(_ & u & -> & _ & Hu)]; [now left|].
  right. simpl. apply Hu. rewrite trimmedNonEmpty_app, in_app_iff. left.
  apply In_trimmedNonEmpty. eauto.
Qed.

(** C9.  In [updateSessionFromMessage], a field for which the extraction
    gives no non-blank value keeps its answer record and its dossier value;
    a field for which it gives one gets a record whose time stamps are the
    history recorded so far with one time stamp appended, and the dossier
    holds the value of that record.  In [mergeUserInputs], a member for
    which the update has no value keeps its previous value. *)
Theorem merge_frame :
  (forall s m idx r now fid,
      let s' := updateSessionFromMessage s m idx r now in
      (match r with
       | Some e => existsb (provides fid) (ex_answers e) = false
       | None => True
       end ->
       answers s' !! fid = answers s !! fid
       /\ dossier s' !! fid = dossier s !! fid)
      /\ (forall e, r = Some e ->
          ~ In (getMessageId m idx) (processedMessageIds s) ->
          existsb (provides fid) (ex_answers e) = true ->
          exists rec t,
            answers s' !! fid = Some rec
            /\ ar_fieldId rec = fid
            /\ ar_timestamps rec = history s fid ++ [t]
            /\ dossier s' !! fid = Some (ar_value rec)))
  /\ (forall existing updates,
         let merged := mergeUserInputs existing updates in
         (Js.truthy (ui_title updates) = false ->
          ui_title merged = ui_title existing)
         /\ (Js.truthy (ui_description updates) = false ->
             ui_description merged = ui_description existing)
         /\ (Js.truthy (ui_targetAudience updates) = false ->
             ui_targetAudience merged = ui_targetAudience existing)
         /\ (Js.truthy (ui_budget updates) = false ->
             ui_budget merged = ui_budget existing)
         /\ (Js.truthy (ui_timeline updates) = false ->
             ui_timeline merged = ui_timeline existing)
         /\ (Js.truthy (ui_scope updates) = false ->
             ui_scope merged = ui_scope existing)
         /\ (ui_requirements updates = None ->
             ui_requirements merged = ui_requirements existing)
         /\ (ui_objectives updates = None ->
             ui_objectives merged = ui_objectives existing)
         /\ (ui_keyActivities updates = None ->
             ui_keyActivities merged = ui_keyActivities existing)
         /\ (ui_keyChallenges updates = None ->
             ui_keyChallenges merged = ui_keyChallenges existing)
         /\ (ui_successMetrics updates = None ->
             ui_successMetrics merged = ui_successMetrics existing)
         /\ (ui_keyPartners updates = None ->
             ui_keyPartners merged = ui_keyPartners existing)
         /\ (ui_outputPreferences updates = None ->
             ui_outputPreferences merged = ui_outputPreferences existing)).
Proof.
  split.
  - intros s m idx r now fid s'. subst s'. unfold updateSessionFromMessage.
    destruct (bool_decide (getMessageId m idx ∈ processedMessageIds s)) eqn:Eb.
    + split; [tauto|].
      intros e _ Hunseen _. exfalso. apply Hunseen.
      apply bool_decide_eq_true_1 in Eb. now apply list_elem_of_In.
    + destruct r as [e|].
      * destruct (fold_left (applyAnswer s now) (indexed (ex_answers e))
                            (answers s, dossier s)) as [ua ud] eqn:Ef.
        cbn [answers dossier]. split.
        -- intros H. rewrite <- existsb_indexed in H.
           pose proof (foldAnswers_frame s now _ (answers s, dossier s) fid H) as Hf.
           rewrite Ef in Hf. exact Hf.
        -- intros e' [= <-] _ H. rewrite <- existsb_indexed in H.
           pose proof (foldAnswers_updated s now _ (answers s, dossier s) fid H) as Hf.
           rewrite Ef in Hf. exact Hf.
      * cbn [answers dossier]. split; [tauto|]. intros e [=].
  - intros existing updates merged. subst merged. unfold mergeUserInputs.
    cbn [ui_title ui_description ui_targetAudience ui_budget ui_timeline
         ui_scope ui_requirements ui_objectives ui_keyActivities
         ui_keyChallenges ui_successMetrics ui_keyPartners
         ui_outputPreferences].
    repeat split; try apply overwriteIfTruthy_none;
      intros ->; reflexivity.
Qed.

(** An extraction that answers [a] only: [b] is untouched, [a] gets its
    first time stamp. *)
Lemma merge_frame_witness :
  let s := Session.createDocSession Sample.twoFieldDef in
  let s' := updateSessionFromMessage s (Sample.human "m1" "it is solar") 0
              (Some Sample.extractedA) Sample.clock in
  (answers s' !! "b" = answers s !! "b" /\ dossier s' !! "b" = dossier s !! "b")
  /\ exists rec t,
       answers s' !! "a" = Some rec
       /\ ar_fieldId rec = "a"
       /\ ar_timestamps rec = history s "a" ++ [t]
       /\ dossier s' !! "a" = Some (ar_value rec).
Proof.
  intros s s'. split.
  - apply (proj1 (proj1 merge_frame s (Sample.human "m1" "it is solar") 0%Z
                    (Some Sample.extractedA) Sample.clock "b")).
    reflexivity.
  - apply (proj2 (proj1 merge_frame s (Sample.human "m1" "it is solar") 0%Z
                    (Some Sample.extractedA) Sample.clock "a")
             Sample.extractedA eq_refl).
    + simpl. tauto.
    + reflexivity.
Defined.

End MergeFrame.

(** ** Assumption injection in the intake node *)

Section Assumptions.
Import Intake Stated.

Lemma length_app_string (a b : string) :
  String.length (a +:+ b) = (String.length a + String.length b)%nat.
Proof. induction a as [|c a IH]; simpl; [reflexivity|now rewrite IH]. Qed.

Lemma app_assoc_string (a b c : string) :
  (a +:+ b) +:+ c = a +:+ (b +:+ c).
Proof.
  induction a as [|d a IH]; [reflexivity|].
  change (String d ((a +:+ b) +:+ c) = String d (a +:+ (b +:+ c))).
  now rewrite IH.
Qed.

Lemma isEmpty_app_r (a b : string) :
  Js.isEmpty b = false -> Js.isEmpty (a +:+ b) = false.
Proof. destruct a; [trivial|reflexivity]. Qed.

Lemma mapChars_app (f : ascii -> ascii) (a b : string) :
  Js.mapChars f (a +:+ b) = Js.mapChars f a +:+ Js.mapChars f b.
Proof. induction a as [|c a IH]; simpl; [reflexivity|now rewrite IH]. Qed.

Lemma dropChars_app (a b : string) :
  Js.dropChars (String.length a) (a +:+ b) = b.
Proof. induction a as [|c a IH]; simpl; [now destruct b|exact IH]. Qed.

Lemma sliceLast_app (a b : string) :
  Js.sliceLast (String.length b) (a +:+ b) = b.
Proof.
  unfold Js.sliceLast. rewrite length_app_string.
  replace (String.length a + String.length b - String.length b)%nat
    with (String.length a) by lia.
  apply dropChars_app.
Qed.

Lemma trimStart_initiative (x : string) :
  exists z, Js.trimStart (x +:+ " Initiative") = z +:+ "Initiative".
Proof.
  induction x as [|c x IH]; simpl.
  - exists EmptyString. reflexivity.
  - destruct (Js.isWhitespace c); [exact IH|].
    exists (String c x +:+ " "). rewrite app_assoc_string. reflexivity.
Qed.

Lemma trimEnd_app_fixed (z w : string) :
  Js.isEmpty w = false -> Js.trimEnd w = w ->
  Js.trimEnd (z +:+ w) = z +:+ w.
Proof.
  intros Hw Ht. induction z as [|c z IH]; simpl; [exact Ht|].
  rewrite IH, (isEmpty_app_r z w Hw), andb_false_r. reflexivity.
Qed.

(** A title that ends in [ Initiative] is not generic. *)
Lemma isGenericTitle_initiative (x : string) :
  isGenericTitle (Some (x +:+ " Initiative")) = false.
Proof.
  unfold isGenericTitle. cbn [Js.truthy].
  rewrite (isEmpty_app_r x " Initiative" eq_refl). cbn [negb].
  unfold Js.trim. destruct (trimStart_initiative x) as [z ->].
  rewrite (trimEnd_app_fixed z "Initiative" eq_refl eq_refl).
  unfold Js.toLowerCase. rewrite mapChars_app.
  set (lz := Js.mapChars Js.lowerAscii z).
  change (Js.mapChars Js.lowerAscii "Initiative") with "initiative".
  rewrite length_app_string.
  replace (String.length lz + String.length "initiative" <=? 6)%nat with false
    by (symmetry; apply Nat.leb_gt; simpl; lia).
  apply not_true_is_false. intros H. apply existsb_exists in H as (p & Hp & E).
  apply String.eqb_eq in E.
  pose proof (sliceLast_app lz "initiative") as Hs. rewrite E in Hs.
  simpl in Hp.
  destruct Hp as [<-|[<-|[<-|[<-|[<-|[]]]]]]; vm_compute in Hs; discriminate Hs.
Qed.

Lemma suggestWorkingTitle_fallback (i : UserInputs) :
  Js.truthy (ui_title i) && negb (isGenericTitle (ui_title i)) = false ->
  exists x, suggestWorkingTitle i = x +:+ " Initiative".
Proof.
  intros H. unfold suggestWorkingTitle. rewrite H.
  destruct (2 <=? _)%nat; [eauto|].
  destruct (Js.truthy (ui_targetAudience i)).
  - exists (match ui_targetAudience i with Some a => a | None => "" end
            +:+ " Concept").
    rewrite app_assoc_string. reflexivity.
  - exists "Strategic Concept Note". reflexivity.
Qed.

Lemma suggestWorkingTitle_nonempty (i : UserInputs) :
  Js.isEmpty (suggestWorkingTitle i) = false.
Proof.
  destruct (Js.truthy (ui_title i) && negb (isGenericTitle (ui_title i))) eqn:E.
  - unfold suggestWorkingTitle. rewrite E.
    apply andb_true_iff in E as [E _].
    destruct (ui_title i) as [t|]; [|discriminate]. simpl in E.
    now apply negb_true_iff in E.
  - destruct (suggestWorkingTitle_fallback i E) as [x ->].
    now apply isEmpty_app_r.
Qed.

(** Once its default is in place, the title needs no follow-up. *)
Lemma title_settled (i : UserInputs) :
  be_followUpNeeded titleEntry (withDefaults i) = false.
Proof.
  cbn [be_followUpNeeded titleEntry withDefaults ui_title].
  destruct (negb (Js.truthy (ui_title i)) || isGenericTitle (ui_title i)) eqn:E;
    [|exact E].
  assert (E' : Js.truthy (ui_title i) && negb (isGenericTitle (ui_title i)) = false).
  { destruct (Js.truthy (ui_title i)), (isGenericTitle (ui_title i));
      simpl in *; congruence. }
  destruct (suggestWorkingTitle_fallback i E') as [x Hx].
  pose proof (suggestWorkingTitle_nonempty i) as Hne. rewrite Hx in *.
  cbn [Js.truthy]. rewrite Hne, isGenericTitle_initiative. reflexivity.
Qed.

Ltac assume_step entry :=
  intros i acc; unfold assumeEntry, whenNeeded;
  cbn [be_followUpNeeded be_field entry];
  match goal with
  | |- context [if ?c then _ else (i, acc)] =>
      destruct c eqn:E;
      [ unfold applyAssumptionForField;
        rewrite ?suggestWorkingTitle_nonempty, ?E; reflexivity
      | destruct i; rewrite app_nil_r; reflexivity ]
  end.

Ltac assume_normalize :=
  cbn [setTitle setObjectives setTargetAudience setTimeline setBudget setScope
       setKeyActivities setKeyChallenges setSuccessMetrics setKeyPartners
       ui_title ui_description ui_targetAudience ui_budget ui_timeline
       ui_scope ui_requirements ui_objectives ui_keyActivities
       ui_keyChallenges ui_successMetrics ui_keyPartners ui_outputPreferences
       be_followUpNeeded be_field whenNeeded
       titleEntry descriptionEntry objectivesEntry targetAudienceEntry
       timelineEntry budgetEntry scopeEntry keyActivitiesEntry
       keyChallengesEntry successMetricsEntry keyPartnersEntry].

(** One pass of the assumption loop, entry by entry. *)
Lemma assume_title :
  forall i acc,
    assumeEntry (i, acc) titleEntry
    = (setTitle (if be_followUpNeeded titleEntry i
           then Some (suggestWorkingTitle i)
           else ui_title i) i,
       acc ++ whenNeeded titleEntry i).
Proof. assume_step titleEntry. Qed.

Lemma assume_objectives :
  forall i acc,
    assumeEntry (i, acc) objectivesEntry
    = (setObjectives (if be_followUpNeeded objectivesEntry i
           then Some (suggestObjectives i)
           else ui_objectives i) i,
       acc ++ whenNeeded objectivesEntry i).
Proof. assume_step objectivesEntry. Qed.

Lemma assume_targetAudience :
  forall i acc,
    assumeEntry (i, acc) targetAudienceEntry
    = (setTargetAudience (if be_followUpNeeded targetAudienceEntry i
           then Some "General stakeholders (assumed)"
           else ui_targetAudience i) i,
       acc ++ whenNeeded targetAudienceEntry i).
Proof. assume_step targetAudienceEntry. Qed.

Lemma assume_timeline :
  forall i acc,
    assumeEntry (i, acc) timelineEntry
    = (setTimeline (if be_followUpNeeded timelineEntry i
           then Some "Approximately 6–12 months (assumed)"
           else ui_timeline i) i,
       acc ++ whenNeeded timelineEntry i).
Proof. assume_step timelineEntry. Qed.

Lemma assume_budget :
  forall i acc,
    assumeEntry (i, acc) budgetEntry
    = (setBudget (if be_followUpNeeded budgetEntry i
           then Some "Budget to be confirmed during planning (assumed)"
           else ui_budget i) i,
       acc ++ whenNeeded budgetEntry i).
Proof. assume_step budgetEntry. Qed.

Lemma assume_scope :
  forall i acc,
    assumeEntry (i, acc) scopeEntry
    = (setScope (if be_followUpNeeded scopeEntry i
           then Some "Local or regional focus (assumed)"
           else ui_scope i) i,
       acc ++ whenNeeded scopeEntry i).
Proof. assume_step scopeEntry. Qed.

Lemma assume_keyActivities :
  forall i acc,
    assumeEntry (i, acc) keyActivitiesEntry
    = (setKeyActivities (if be_followUpNeeded keyActivitiesEntry i
           then Some [ "Discovery and requirements workshops";
                  "Pilot implementation of the core solution";
                  "Evaluation and scale-up planning" ]
           else ui_keyActivities i) i,
       acc ++ whenNeeded keyActivitiesEntry i).
Proof. assume_step keyActivitiesEntry. Qed.

Lemma assume_keyChallenges :
  forall i acc,
    assumeEntry (i, acc) keyChallengesEntry
    = (setKeyChallenges (if be_followUpNeeded keyChallengesEntry i
           then Some [ "Stakeholder alignment and change management";
                  "Resource availability and budget approvals";
                  "Data, compliance, or policy considerations" ]
           else ui_keyChallenges i) i,
       acc ++ whenNeeded keyChallengesEntry i).
Proof. assume_step keyChallengesEntry. Qed.

Lemma assume_successMetrics :
  forall i acc,
    assumeEntry (i, acc) successMetricsEntry
    = (setSuccessMetrics (if be_followUpNeeded successMetricsEntry i
           then Some [ "Achievement of the primary project objectives";
                  "Stakeholder satisfaction beating target thresholds";
                  "On-time delivery of critical milestones" ]
           else ui_successMetrics i) i,
       acc ++ whenNeeded successMetricsEntry i).
Proof. assume_step successMetricsEntry. Qed.

Lemma assume_keyPartners :
  forall i acc,
    assumeEntry (i, acc) keyPartnersEntry
    = (setKeyPartners (if be_followUpNeeded keyPartnersEntry i
           then Some [ "Executive sponsor or leadership champion";
                  "Core delivery team or PMO";
                  "Key external collaborators or vendors" ]
           else ui_keyPartners i) i,
       acc ++ whenNeeded keyPartnersEntry i).
Proof. assume_step keyPartnersEntry. Qed.

Lemma assume_description :
  forall i acc, assumeEntry (i, acc) descriptionEntry = (i, acc).
Proof.
  intros i acc. unfold assumeEntry.
  destruct (be_followUpNeeded descriptionEntry i); reflexivity.
Qed.

(** The assumption pass as a whole. *)
Lemma applyAssumptionsIfRequested_eq (i : UserInputs) :
  applyAssumptionsIfRequested i = (withDefaults i, assumedList i).
Proof.
  destruct i as [t d a b tl sc rq ob ka kc sm kp op].
  unfold applyAssumptionsIfRequested, CLARITY_BLUEPRINT, assumedList, withDefaults.
  cbn [fold_left].
  rewrite assume_title; assume_normalize.
  rewrite assume_description.
  rewrite assume_objectives; assume_normalize.
  rewrite assume_targetAudience; assume_normalize.
  rewrite assume_timeline; assume_normalize.
  rewrite assume_budget; assume_normalize.
  rewrite assume_scope; assume_normalize.
  rewrite assume_keyActivities; assume_normalize.
  rewrite assume_keyChallenges; assume_normalize.
  rewrite assume_successMetrics; assume_normalize.
  rewrite assume_keyPartners; assume_normalize.
  rewrite <- !app_assoc. reflexivity.
Qed.

(** With the defaults in place no entry but the description needs
    follow-up. *)
Lemma defaults_settle (i : UserInputs) (e : ClarityBlueprintEntry) :
  In e CLARITY_BLUEPRINT -> be_field e <> FDescription ->
  be_followUpNeeded e (withDefaults i) = false.
Proof.
  intros Hin Hne. unfold CLARITY_BLUEPRINT in Hin. simpl in Hin.
  destruct Hin as [<-|[<-|Hin]]; [apply title_settled|now contradict Hne|].
  repeat (destruct Hin as [<-|Hin]; [|]);
    try (destruct Hin);
    assume_normalize; unfold withDefaults; assume_normalize;
    match goal with
    | |- context [if ?c then _ else _] => destruct c eqn:E
    end; try reflexivity; try exact E.
Qed.

Lemma In_whenNeeded (e : ClarityBlueprintEntry) (i : UserInputs) :
  be_followUpNeeded e i = true -> In (be_field e) (whenNeeded e i).
Proof. unfold whenNeeded. intros ->. now left. Qed.

Lemma whenNeeded_In (e : ClarityBlueprintEntry) (i : UserInputs) (f : Field) :
  In f (whenNeeded e i) -> f = be_field e.
Proof.
  unfold whenNeeded. destruct (be_followUpNeeded e i); simpl; [|tauto].
  intros [<-|[]]. reflexivity.
Qed.

Lemma assumedList_complete (i : UserInputs) (e : ClarityBlueprintEntry) :
  In e CLARITY_BLUEPRINT -> be_field e <> FDescription ->
  be_followUpNeeded e i = true -> In (be_field e) (assumedList i).
Proof.
  intros Hin Hne Hfu. unfold CLARITY_BLUEPRINT in Hin. simpl in Hin.
  unfold assumedList. rewrite !in_app_iff.
  destruct Hin as [<-|[<-|Hin]];
    [left; now apply In_whenNeeded|now contradict Hne|].
  repeat (destruct Hin as [<-|Hin];
          [pose proof (In_whenNeeded _ _ Hfu); tauto|]).
  destruct Hin.
Qed.

Lemma trackEntry_skip (inputs : UserInputs) (assumed : list Field)
    (now : string) (uuid : Field -> string)
    (m : list (QuestionField * ClarifyingQuestion)) (e : ClarityBlueprintEntry) :
  be_followUpNeeded e inputs = false ->
  mapGet (UserField (be_field e)) m = None ->
  trackEntry inputs assumed now uuid m e = m.
Proof. intros H1 H2. unfold trackEntry. now rewrite H1, H2. Qed.

Lemma trackEntries_skip (inputs : UserInputs) (assumed : list Field)
    (now : string) (uuid : Field -> string)
    (l : list ClarityBlueprintEntry)
    (m : list (QuestionField * ClarifyingQuestion)) :
  (forall e, In e l ->
     be_followUpNeeded e inputs = false
     /\ mapGet (UserField (be_field e)) m = None) ->
  fold_left (trackEntry inputs assumed now uuid) l m = m.
Proof.
  induction l as [|e l IH]; intros H; [reflexivity|]. cbn [fold_left].
  destruct (H e (or_introl eq_refl)) as [H1 H2].
  rewrite (trackEntry_skip _ _ _ _ _ _ H1 H2). apply IH.
  intros e' He'. apply H. now right.
Qed.

(** The clarifying questions prepared from inputs with the defaults in
    place, when no question was tracked before: the question of the
    description, asked, when the description needs follow-up, and none
    otherwise. *)
Lemma prepare_after_defaults (i : UserInputs) (assumed : list Field)
    (now : string) (uuid : Field -> string) :
  prepareClarifyingQuestions None (withDefaults i) assumed now uuid
  = if be_followUpNeeded descriptionEntry i
    then {| updatedQuestions := [askedDescription now uuid];
            questionsToAsk := [askedDescription now uuid] |}
    else {| updatedQuestions := []; questionsToAsk := [] |}.
Proof.
  assert (Hs : forall e, In e CLARITY_BLUEPRINT -> be_field e <> FDescription ->
                         be_followUpNeeded e (withDefaults i) = false)
    by (intros e; apply defaults_settle).
  assert (Hd : be_followUpNeeded descriptionEntry (withDefaults i)
               = be_followUpNeeded descriptionEntry i) by reflexivity.
  assert (Hrest : forall m,
             (forall e, In e [objectivesEntry; targetAudienceEntry;
                              timelineEntry; budgetEntry; scopeEntry;
                              keyActivitiesEntry; keyChallengesEntry;
                              successMetricsEntry; keyPartnersEntry] ->
                        mapGet (UserField (be_field e)) m = None) ->
             fold_left (trackEntry (withDefaults i) assumed now uuid)
               [objectivesEntry; targetAudienceEntry; timelineEntry;
                budgetEntry; scopeEntry; keyActivitiesEntry;
                keyChallengesEntry; successMetricsEntry; keyPartnersEntry] m
             = m).
  { intros m Hm. apply trackEntries_skip. intros e He. split; [|now apply Hm].
    apply Hs.
    - unfold CLARITY_BLUEPRINT. now do 2 right.
    - simpl in He.
      repeat (destruct He as [<-|He]; [discriminate|]). destruct He. }
  assert (Hfirst : fold_left (trackEntry (withDefaults i) assumed now uuid)
                     [titleEntry; descriptionEntry] []
                   = trackEntry (withDefaults i) assumed now uuid []
                                descriptionEntry).
  { cbn [fold_left].
    rewrite (trackEntry_skip _ _ _ _ [] titleEntry);
      [reflexivity| |reflexivity].
    apply Hs; [unfold CLARITY_BLUEPRINT; now left|discriminate]. }
  unfold prepareClarifyingQuestions.
  change CLARITY_BLUEPRINT
    with ([titleEntry; descriptionEntry]
          ++ [objectivesEntry; targetAudienceEntry; timelineEntry;
              budgetEntry; scopeEntry; keyActivitiesEntry;
              keyChallengesEntry; successMetricsEntry; keyPartnersEntry]).
  rewrite fold_left_app.
  change (fold_left (fun m q => mapSet (cq_field q) q m) [] [])
    with (@nil (QuestionField * ClarifyingQuestion)).
  rewrite Hfirst.
  set (tracked := trackEntry (withDefaults i) assumed now uuid [] descriptionEntry).
  assert (Ht : tracked
               = if be_followUpNeeded descriptionEntry i
                 then [(UserField FDescription,
                        {| cq_id := "clarify-" +:+ fieldName FDescription +:+ "-"
                                    +:+ uuid FDescription;
                           cq_field := UserField FDescription;
                           cq_question := be_question descriptionEntry;
                           cq_rationale := be_rationale descriptionEntry;
                           cq_required := be_required descriptionEntry;
                           cq_status := Pending;
                           cq_timesAsked := 0;
                           cq_lastAskedAt := now;
                           cq_assumptionSuggestion :=
                             be_assumptionSuggestion descriptionEntry |})]
                 else []).
  { unfold tracked, trackEntry. rewrite Hd.
    destruct (be_followUpNeeded descriptionEntry i); reflexivity. }
  rewrite Ht. clear Ht tracked.
  destruct (be_followUpNeeded descriptionEntry i).
  - rewrite Hrest; [reflexivity|].
    intros e He. simpl in He.
    repeat (destruct He as [<-|He]; [reflexivity|]). destruct He.
  - rewrite Hrest; [reflexivity|]. reflexivity.
Qed.

(** C7, counterexample.  On the message of scenario D, with no prior
    inputs and no tracked question, the description gets no default, no
    tracked question is marked assumed, and the question of the description
    is asked. *)
Lemma scenarioD_fails :
  ~ scenarioD Sample.assumeMessage Sample.assumeParsed "t0" Sample.uuid.
Proof.
  intros H. destruct (H eq_refl) as [_ Hq].
  vm_compute in Hq. discriminate Hq.
Qed.

(** C7, amended.  With no prior inputs and no tracked question, when the
    message asks for assumptions, every blueprint entry other than the
    description that needs follow-up after the merge gets the value that
    [applyAssumptionForField] assigns (member by member: [withDefaults]),
    is listed as assumed and needs no follow-up any more.  The description
    is never given a default: when it needs follow-up its question is the
    one question tracked and asked this turn, with status pending;
    otherwise no question is tracked or asked.  No tracked question is
    marked assumed. *)
Theorem assumptions_fill_all_but_description (content : string)
    (parsed : UserInputs) (now : string) (uuid : Field -> string) :
  didUserRequestAssumptions content = true ->
  let merged := mergeUserInputs noInputs parsed in
  let r := userIntakeNode None None content parsed now uuid in
  ir_userInputs r = withDefaults merged
  /\ ir_assumedFields r = assumedList merged
  /\ (forall e, In e CLARITY_BLUEPRINT -> be_field e <> FDescription ->
        be_followUpNeeded e (ir_userInputs r) = false
        /\ (be_followUpNeeded e merged = true ->
            In (be_field e) (ir_assumedFields r)))
  /\ ui_description (ir_userInputs r) = ui_description merged
  /\ ~ In FDescription (ir_assumedFields r)
  /\ (forall q, In q (ir_clarifyingQuestions r) -> cq_status q = Pending)
  /\ (if be_followUpNeeded descriptionEntry merged
      then ir_questionsToAsk r = [askedDescription now uuid]
           /\ ir_clarifyingQuestions r = [askedDescription now uuid]
      else ir_questionsToAsk r = [] /\ ir_clarifyingQuestions r = []).
Proof.
  intros Hreq merged r.
  assert (Er : r = if be_followUpNeeded descriptionEntry merged
                   then {| ir_userInputs := withDefaults merged;
                           ir_clarifyingQuestions := [askedDescription now uuid];
                           ir_questionsToAsk := [askedDescription now uuid];
                           ir_assumedFields := assumedList merged;
                           ir_needsUserIntervention := true;
                           ir_conceptNoteStage := "intake" |}
                   else {| ir_userInputs := withDefaults merged;
                           ir_clarifyingQuestions := [];
                           ir_questionsToAsk := [];
                           ir_assumedFields := assumedList merged;
                           ir_needsUserIntervention := false;
                           ir_conceptNoteStage := "research" |}).
  { subst r. unfold userIntakeNode. rewrite Hreq. fold merged.
    rewrite applyAssumptionsIfRequested_eq, prepare_after_defaults.
    destruct (be_followUpNeeded descriptionEntry merged); reflexivity. }
  assert (E1 : ir_userInputs r = withDefaults merged)
    by (rewrite Er; destruct (be_followUpNeeded descriptionEntry merged);
        reflexivity).
  assert (E2 : ir_assumedFields r = assumedList merged)
    by (rewrite Er; destruct (be_followUpNeeded descriptionEntry merged);
        reflexivity).
  split; [exact E1|]. split; [exact E2|]. split; [|split; [|split; [|split]]].
  - intros e Hin Hne. rewrite E1, E2. split.
    + now apply defaults_settle.
    + now apply assumedList_complete.
  - rewrite E1. reflexivity.
  - rewrite E2. unfold assumedList. rewrite !in_app_iff.
    intros H.
    repeat (destruct H as [H|H];
            [apply whenNeeded_In in H; discriminate H|]).
    apply whenNeeded_In in H; discriminate H.
  - intros q Hq. rewrite Er in Hq.
    destruct (be_followUpNeeded descriptionEntry merged); simpl in Hq;
      [destruct Hq as [<-|[]]; reflexivity|destruct Hq].
  - rewrite Er. destruct (be_followUpNeeded descriptionEntry merged);
      split; reflexivity.
Qed.

(** Scenario D as the code runs it: nine fields are assumed, the
    description is asked about. *)
Lemma assumptions_fill_all_but_description_witness :
  let r := userIntakeNode None None Sample.assumeMessage Sample.assumeParsed
             "t0" Sample.uuid in
  didUserRequestAssumptions Sample.assumeMessage = true
  /\ ir_assumedFields r
     = [FObjectives; FTargetAudience; FTimeline; FBudget; FScope;
        FKeyActivities; FKeyChallenges; FSuccessMetrics; FKeyPartners]
  /\ ir_questionsToAsk r = [askedDescription "t0" Sample.uuid].
Proof.
  assert (Hreq : didUserRequestAssumptions Sample.assumeMessage = true)
    by (vm_compute; reflexivity).
  split; [exact Hreq|].
  destruct (assumptions_fill_all_but_description Sample.assumeMessage
              Sample.assumeParsed "t0" Sample.uuid Hreq)
    as (_ & E2 & _ & _ & _ & _ & Hq).
  split.
  - rewrite E2. vm_compute. reflexivity.
  - assert (Hd : be_followUpNeeded descriptionEntry
                   (mergeUserInputs noInputs Sample.assumeParsed) = true)
      by (vm_compute; reflexivity).
    rewrite Hd in Hq. exact (proj1 Hq).
Defined.

End Assumptions.
